(** * FleetHub: the reporter, the Feishu proxy and the dashboard pages

    A shallow embedding of the JavaScript / TypeScript sources of the
    repository, and the properties of the specification stated over it.

    Conventions of the embedding.
    - A JavaScript value that comes out of [JSON.parse] / [res.json()] is a
      [JSON]; [undefined] is the [None] of [option JSON].
    - Truthiness ([!x], [x || y], [x ? a : b]) is the function [truthy].
    - Instants ([Date.now()], [report_at]) are integers, in milliseconds.
    - An object literal the code uses as a dictionary ([statusMap],
      [grouped]) is the finite map of its own entries, keyed by the status
      label. Labels are the status names of the data model; the member
      names every JavaScript object inherits (constructor, toString, ...)
      are not status names and lie outside the embedding.
    - A promise is modelled by the value it settles with; an exception by an
      explicit constructor of the result type. *)

From stdpp Require Import gmap strings list fin_maps pretty.
From Stdlib Require Import ZArith Lia.

Local Open Scope Z_scope.
Local Open Scope string_scope.
Set Warnings "-register-all".

(** ** JSON values and the JavaScript operations used on them *)

Inductive JSON : Type :=
  | JNull
  | JBool (b : bool)
  | JNum (n : Z)
  | JStr (s : string)
  | JArr (items : list JSON)
  | JObj (fields : list (string * JSON)).

(** [assoc k fields]: the value of the own property [k] of a parsed object. *)
Fixpoint assoc (k : string) (fields : list (string * JSON)) : option JSON :=
  match fields with
  | [] => None
  | (k', v) :: rest => if String.eqb k k' then Some v else assoc k rest
  end.

(** ToBoolean on a JSON value: [null], [false], [0] and [""] are falsy. *)
Definition truthy (v : JSON) : bool :=
  match v with
  | JNull => false
  | JBool b => b
  | JNum n => negb (Z.eqb n 0)
  | JStr s => negb (String.eqb s "")
  | JArr _ | JObj _ => true
  end.

(** ToBoolean on a possibly [undefined] value. *)
Definition truthy_opt (v : option JSON) : bool :=
  match v with
  | None => false
  | Some j => truthy j
  end.

(** The outcome of a computation that may throw. *)
Inductive Completion (A : Type) : Type :=
  | Normal (a : A)
  | Throw (message : string).
Arguments Normal {A} a.
Arguments Throw {A} message.

(** [v.k] for one of the field names the sources read ([error], [robot],
    [status], ...): reading a property of [null] throws a TypeError, a
    primitive or an array has no such property. *)
Definition get (v : JSON) (k : string) : Completion (option JSON) :=
  match v with
  | JNull => Throw "TypeError: Cannot read properties of null"
  | JObj fields => Normal (assoc k fields)
  | _ => Normal None
  end.

(** [v.k] where [v] is known not to be [null] (it is truthy, or an object
    the code has just built). *)
Definition field (v : JSON) (k : string) : option JSON :=
  match v with
  | JObj fields => assoc k fields
  | _ => None
  end.

(** [x || y] on possibly [undefined] operands. *)
Definition or_else (x : option JSON) (y : JSON) : JSON :=
  match x with
  | Some j => if truthy j then j else y
  | None => y
  end.

(** ** unnamed/part_000: mapStatus *)

(** A status label as the Bitable record carries it: the field may be
    absent, null, or a string. *)
Inductive Label : Type :=
  | LUndefined
  | LNull
  | LStr (s : string).

Definition label_truthy (l : Label) : bool :=
  match l with
  | LStr s => negb (String.eqb s "")
  | _ => false
  end.

Definition statusMap : gmap string string :=
  <["Online" := "在线"]> (
  <["online" := "在线"]> (
  <["Offline" := "离线"]> (
  <["offline" := "离线"]> (
  <["执行中" := "执行中"]> (
  <["running" := "执行中"]> ∅))))).

Definition mapStatus (status : Label) : Label :=
  if negb (label_truthy status) then LStr "离线"
  else
    match status with
    | LStr s =>
        match statusMap !! s with
        | Some v => if negb (String.eqb v "") then LStr v else status
        | None => status
        end
    | _ => status
    end.

Example mapStatus_online : mapStatus (LStr "online") = LStr "在线".
Proof. vm_compute. reflexivity. Qed.

Example mapStatus_degraded : mapStatus (LStr "Degraded") = LStr "Degraded".
Proof. vm_compute. reflexivity. Qed.

(** ** unnamed/part_000: the Feishu token cache and the record proxy *)

(** A small state-and-exception monad for the server-side scripts: the
    module-level variables, the clock read by [Date.now()], and a trace of
    the network requests and console lines the code produced. *)
Record World : Type := {
  accessToken : option string;      (* let accessToken = null *)
  tokenExpireTime : Z;              (* let tokenExpireTime = 0 *)
  clock : Z;                        (* what Date.now() returns *)
  requests : list string;           (* URLs requested so far, oldest first *)
  console : list string             (* console.error lines, oldest first *)
}.

Definition M (A : Type) : Type := World → Completion A * World.

#[local] Instance M_ret : MRet M := λ A a w, (Normal a, w).
#[local] Instance M_bind : MBind M := λ A B f m w,
  match m w with
  | (Normal a, w') => f a w'
  | (Throw e, w') => (Throw e, w')
  end.

Definition throw {A} (message : string) : M A := λ w, (Throw message, w).

(** [try { body } catch (error) { handler(error.message) }] *)
Definition try_catch {A} (body : M A) (handler : string → M A) : M A := λ w,
  match body w with
  | (Normal a, w') => (Normal a, w')
  | (Throw e, w') => handler e w'
  end.

Definition read {A} (f : World → A) : M A := λ w, (Normal (f w), w).

Definition set_accessToken (t : option string) : M unit := λ w,
  (Normal tt, {| accessToken := t; tokenExpireTime := tokenExpireTime w;
                 clock := clock w; requests := requests w; console := console w |}).

Definition set_tokenExpireTime (t : Z) : M unit := λ w,
  (Normal tt, {| accessToken := accessToken w; tokenExpireTime := t;
                 clock := clock w; requests := requests w; console := console w |}).

Definition console_error (line : string) : M unit := λ w,
  (Normal tt, {| accessToken := accessToken w; tokenExpireTime := tokenExpireTime w;
                 clock := clock w; requests := requests w;
                 console := console w ++ [line] |}).

(** What an axios call settles with: a response body, or a rejection
    (network error, non-2xx status). *)
Inductive Http (A : Type) : Type :=
  | Replied (data : A)
  | Rejected (message : string).
Arguments Replied {A} data.
Arguments Rejected {A} message.

(** [await axios.post/get(url, ...)]: the request is recorded, [latency]
    milliseconds pass, and the call returns the reply or throws. *)
Definition axios {A} (url : string) (reply : Http A) (latency : Z) : M A := λ w,
  let w' := {| accessToken := accessToken w; tokenExpireTime := tokenExpireTime w;
               clock := clock w + latency; requests := requests w ++ [url];
               console := console w |} in
  match reply with
  | Replied data => (Normal data, w')
  | Rejected e => (Throw e, w')
  end.

(** [response.data] of the tenant_access_token endpoint. *)
Record TokenReply : Type := {
  tr_code : Z;
  tenant_access_token : string;
  expire : Z;                       (* lifetime of the token, in seconds *)
  tr_msg : string
}.

Definition token_url : string :=
  "https://open.feishu.cn/open-apis/auth/v3/tenant_access_token/internal".

(** ToBoolean of the cached token: [null] and [""] are falsy. *)
Definition token_truthy (t : option string) : bool :=
  match t with
  | Some s => negb (String.eqb s "")
  | None => false
  end.

(** [accessToken && Date.now() < tokenExpireTime] *)
Definition cache_valid (w : World) : bool :=
  token_truthy (accessToken w) && (clock w <? tokenExpireTime w)%Z.

(** The serverless handler's copy (lines 12-32): a non-zero code falls out
    of the [try] to the final [return null]. *)
Module Serverless.

Definition getAccessToken (reply : Http TokenReply) (latency : Z) : M (option string) :=
  valid ← read cache_valid;
  if (valid : bool) then read accessToken
  else
    early ← try_catch
      (response ← axios token_url reply latency;
       if (tr_code response =? 0)%Z then
         set_accessToken (Some (tenant_access_token response));;
         now ← read clock;
         set_tokenExpireTime (now + (expire response - 60) * 1000);;
         t ← read accessToken;
         mret (Some t)
       else mret None)
      (λ message,
         console_error ("获取 token 失败: " ++ message);;
         mret None);
    match early with
    | Some t => mret t
    | None => mret None
    end.

End Serverless.

(** The Express server's copy (lines 113-136): a non-zero code throws inside
    the [try] and is caught by the same handler. *)
Module Express.

Definition getAccessToken (reply : Http TokenReply) (latency : Z) : M (option string) :=
  valid ← read cache_valid;
  if (valid : bool) then read accessToken
  else
    try_catch
      (response ← axios token_url reply latency;
       if (tr_code response =? 0)%Z then
         set_accessToken (Some (tenant_access_token response));;
         now ← read clock;
         set_tokenExpireTime (now + (expire response - 60) * 1000);;
         read accessToken
       else throw ("Failed to get token: " ++ tr_msg response))
      (λ message,
         console_error ("Error getting access token: " ++ message);;
         mret None).

End Express.

(** A cell of a Bitable record or of the mock data: text, a number, or an
    instant printed by [toISOString()]. *)
Inductive Cell : Type :=
  | CText (s : string)
  | CNum (n : Z)
  | CIso (instant : Z).

(** [record.fields]: field name to cell, in the order written. *)
Definition Fields : Type := list (string * Cell).

(** [response.data] of the Bitable records endpoint; [rr_items] is
    [data.items], absent when the reply carries no [data.items] array. *)
Record RecordsReply : Type := {
  rr_code : Z;
  rr_items : option (list Fields);
  rr_msg : string
}.

Definition records_url : string :=
  "https://open.feishu.cn/open-apis/bitable/v1/apps/RQmBbdNJ3au4MCsFxP8c2vuenPf/tables/tblrUXp6i9aIWrn7/records".

(** [getMockData()], evaluated when [Date.now()] is [now]. *)
Definition getMockData (now : Z) : list Fields :=
  [ [ ("机器人ID", CText "robot-001");
      ("名称", CText "大周");
      ("状态", CText "在线");
      ("当前任务", CText "监控任务");
      ("任务进度", CNum 75);
      ("CPU负载", CNum 45);
      ("内存使用率", CNum 62);
      ("问题状态", CText "正常");
      ("最后活跃", CIso now) ];
    [ ("机器人ID", CText "robot-002");
      ("名称", CText "默默");
      ("状态", CText "执行中");
      ("当前任务", CText "数据同步");
      ("任务进度", CNum 30);
      ("CPU负载", CNum 78);
      ("内存使用率", CNum 55);
      ("问题状态", CText "正常");
      ("最后活跃", CIso (now - 300000)) ] ].

(** The two upstream endpoints as the server sees them during one request. *)
Record Upstream : Type := {
  token_reply : Http TokenReply;
  token_latency : Z;
  records_reply : Http RecordsReply;
  records_latency : Z
}.

Definition mock : M (list Fields) :=
  now ← read clock; mret (getMockData now).

Definition getRecords (up : Upstream) : M (list Fields) :=
  token ← Express.getAccessToken (token_reply up) (token_latency up);
  if negb (token_truthy token) then mock
  else
    try_catch
      (response ← axios records_url (records_reply up) (records_latency up);
       if (rr_code response =? 0)%Z then
         match rr_items response with
         | Some items => mret items
         | None => throw "TypeError: Cannot read properties of undefined"
         end
       else
         console_error ("Error fetching records: " ++ rr_msg response);;
         mock)
      (λ message,
         console_error ("Error fetching records: " ++ message);;
         mock).

(** What an Express handler sends. *)
Inductive Body : Type :=
  | Robots (records : list Fields)
  | ErrorBody (error : string).

Record Response : Type := {
  res_status : Z;
  res_body : Body
}.

(** [app.get('/api/robots', ...)]; [res.json] without [res.status] answers 200. *)
Definition api_robots (up : Upstream) : M Response :=
  try_catch
    (robots ← getRecords up;
     mret {| res_status := 200; res_body := Robots robots |})
    (λ message,
       console_error ("Error: " ++ message);;
       mret {| res_status := 500; res_body := ErrorBody "Failed to fetch robot data" |}).

Definition boot : World :=
  {| accessToken := None; tokenExpireTime := 0; clock := 0;
     requests := []; console := [] |}.

(** ** reporter/reporter.js *)

Module Reporter.

(** The process environment and the [os] module as the reporter reads
    them. [parsed_REPORT_INTERVAL] is the value of
    [parseInt(process.env.REPORT_INTERVAL)], [None] standing for [NaN]. *)
Record Env : Type := {
  env_FLEET_HUB_URL : option string;
  env_ROBOT_ID : option string;
  parsed_REPORT_INTERVAL : option Z;
  os_hostname : string;
  os_platform : string;
  os_uptime : JSON;
  os_loadavg : JSON;
  os_totalmem : JSON;
  os_freemem : JSON
}.

(** [process.env.X || fallback]: an unset or empty variable is falsy. *)
Definition env_or (v : option string) (fallback : string) : string :=
  match v with
  | Some s => if String.eqb s "" then fallback else s
  | None => fallback
  end.

Record Config : Type := {
  HUB_URL : string;
  ROBOT_ID : string;
  INTERVAL : Z
}.

Definition CONFIG (env : Env) : Config :=
  {| HUB_URL := env_or (env_FLEET_HUB_URL env) "http://localhost:3000";
     ROBOT_ID := env_or (env_ROBOT_ID env) (os_hostname env);
     INTERVAL := match parsed_REPORT_INTERVAL env with
                 | Some n => if Z.eqb n 0 then 30000 else n
                 | None => 30000
                 end |}.

(** What [JSON.parse(execSync('openclaw ... --json'))] did: it produced a
    value, or one of the two calls threw an error with this message. *)
Inductive Exec : Type :=
  | Printed (value : JSON)
  | Failed (message : string).

Definition getOpenClawHealth (x : Exec) : JSON :=
  match x with
  | Printed value => value
  | Failed message => JObj [("error", JStr message)]
  end.

Definition getOpenClawStatus (x : Exec) : JSON :=
  match x with
  | Printed value => value
  | Failed message => JObj [("error", JStr message)]
  end.

(** The event that settles the promise of [postData]: the URL does not
    parse (the executor throws), the request emits 'error' or 'timeout',
    or the response ends with a status code and a body. *)
Inductive Delivery : Type :=
  | BadUrl
  | ReqError (message : string)
  | ReqTimeout
  | ResEnd (statusCode : Z) (body : string).

Inductive Settled (A : Type) : Type :=
  | Resolved (a : A)
  | RejectedWith (message : string).
Arguments Resolved {A} a.
Arguments RejectedWith {A} message.

Definition postData (url : string) (data : JSON) (d : Delivery) : Settled (Z * string) :=
  match d with
  | BadUrl => RejectedWith "Invalid URL"
  | ReqError message => RejectedWith message
  | ReqTimeout => RejectedWith "Request timeout"
  | ResEnd statusCode body =>
      if (200 <=? statusCode)%Z && (statusCode <? 300)%Z
      then Resolved (statusCode, body)
      else RejectedWith ("HTTP " ++ pretty statusCode ++ ": " ++ body)
  end.

(** What one call of [report()] reads besides the environment. *)
Record Sample : Type := {
  now_iso : string;                 (* new Date().toISOString() *)
  health_exec : Exec;
  status_exec : Exec
}.

(** [status.error ? null : status] *)
Definition payload_status (status : JSON) : Completion JSON :=
  match get status "error" with
  | Throw e => Throw e
  | Normal err => Normal (if truthy_opt err then JNull else status)
  end.

Definition build_payload (env : Env) (s : Sample) : Completion JSON :=
  let timestamp := now_iso s in
  let health := getOpenClawHealth (health_exec s) in
  let status := getOpenClawStatus (status_exec s) in
  match payload_status status with
  | Throw e => Throw e
  | Normal st =>
      Normal (JObj [
        ("robot_id", JStr (ROBOT_ID (CONFIG env)));
        ("hostname", JStr (os_hostname env));
        ("platform", JStr (os_platform env));
        ("report_at", JStr timestamp);
        ("health", health);
        ("status", st);
        ("metrics", JObj [
           ("uptime", os_uptime env);
           ("loadavg", os_loadavg env);
           ("totalmem", os_totalmem env);
           ("freemem", os_freemem env) ]) ])
  end.

Inductive Line : Type :=
  | Log (text : string)             (* console.log *)
  | Error (text : string).          (* console.error *)

(** One run of [report()]: the console lines, the calls of [postData]
    (URL and body), and how the async function completed. *)
Record Run : Type := {
  lines : list Line;
  posts : list (string * JSON);
  completion : Completion unit
}.

Definition ingest_url (env : Env) : string :=
  HUB_URL (CONFIG env) ++ "/api/ingest/health".

Definition report (env : Env) (s : Sample) (d : Delivery) : Run :=
  let timestamp := now_iso s in
  let collecting := Log ("[" ++ timestamp ++ "] 正在采集机器人状态...") in
  match build_payload env s with
  | Throw e => {| lines := [collecting]; posts := []; completion := Throw e |}
  | Normal payload =>
      match postData (ingest_url env) payload d with
      | Resolved _ =>
          {| lines := [collecting; Log ("[" ++ timestamp ++ "] ✅ 状态上报成功")];
             posts := [(ingest_url env, payload)];
             completion := Normal tt |}
      | RejectedWith message =>
          {| lines := [collecting; Error ("[" ++ timestamp ++ "] ❌ 上报失败: " ++ message)];
             posts := [(ingest_url env, payload)];
             completion := Normal tt |}
      end
  end.

(** *** The start-up code: [report(); setInterval(report, CONFIG.INTERVAL)] *)







End Reporter.

(** ** The dashboard pages *)

(** What [fetch] resolved with: [res.ok], and what [res.json()] settles
    with (it rejects when the body is not JSON). *)
Record Fetched : Type := {
  ok : bool;
  json : Completion JSON
}.

Module RobotDetailPage.


(** The data the detail view is rendered from. *)
Record Detail : Type := {
  robot : JSON;
  report : JSON;
  health : JSON;
  metrics : JSON;
  errors : list JSON;
  jobs : list JSON
}.

Inductive View : Type :=
  | NotFoundView                    (* 未找到该机器人 *)
  | DetailView (d : Detail).

(** [robot.robot_id] and the other reads of [robot] in the JSX: they throw
    when [data.robot] is [undefined] or [null]. *)
Definition read_robot (r : option JSON) : Completion JSON :=
  match r with
  | None => Throw "TypeError: Cannot read properties of undefined"
  | Some JNull => Throw "TypeError: Cannot read properties of null"
  | Some j => Normal j
  end.

(** Reading a property of every element of a list, as the card loops do
    ([e.ts], [j.job_id]): a [null] element throws. *)
Fixpoint read_cards (l : list JSON) : Completion (list JSON) :=
  match l with
  | [] => Normal []
  | JNull :: _ => Throw "TypeError: Cannot read properties of null"
  | x :: rest =>
      match read_cards rest with
      | Normal rest' => Normal (x :: rest')
      | Throw e => Throw e
      end
  end.

(** [(data.errors || []).map(...)]: the truthy value must be an array. *)
Definition cards (v : option JSON) : Completion (list JSON) :=
  match or_else v (JArr []) with
  | JArr l => read_cards l
  | _ => Throw "TypeError: map is not a function"
  end.

Definition render (data : JSON) : Completion View :=
  if negb (truthy data) || truthy_opt (field data "error") then Normal NotFoundView
  else
    let report := or_else (field data "latest_report") (JObj []) in
    let health := or_else (field report "health") (JObj []) in
    let metrics := or_else (field report "metrics") (JObj []) in
    match read_robot (field data "robot") with
    | Throw e => Throw e
    | Normal robot =>
        match cards (field data "errors") with
        | Throw e => Throw e
        | Normal errors =>
            match cards (field data "jobs") with
            | Throw e => Throw e
            | Normal jobs =>
                Normal (DetailView {| robot := robot; report := report;
                                      health := health; metrics := metrics;
                                      errors := errors; jobs := jobs |})
            end
        end
    end.


End RobotDetailPage.

Module WorkboardPage.

(** A JobRecord as [GET /api/jobs] returns it; only [status] decides the
    column, the other fields are carried along. *)
Record Job : Type := {
  job_id : string;
  status : Label;
  other : list (string * JSON)
}.

#[export] Instance Label_eq_dec : EqDecision Label.
Proof. solve_decision. Defined.


(** [columns], as (key, title). *)
Definition columns : list (string * string) :=
  [ ("BACKLOG", "Backlog"); ("ASSIGNED", "Assigned"); ("RUNNING", "Running");
    ("BLOCKED", "Blocked"); ("DONE", "Done"); ("FAILED", "Failed") ].


(** [for (const col of columns) grouped[col.key] = []] *)
Definition grouped_init : gmap string (list Job) :=
  foldl (λ g col, <[col.1 := []]> g) ∅ columns.

(** [j.status || 'BACKLOG'] *)
Definition status_of (j : Job) : string :=
  match status j with
  | LStr s => if String.eqb s "" then "BACKLOG" else s
  | _ => "BACKLOG"
  end.

(** The body of the loop over [jobs]. *)
Definition add_job (grouped : gmap string (list Job)) (j : Job) : gmap string (list Job) :=
  let status := status_of j in
  let grouped' :=
    match grouped !! status with
    | Some _ => grouped
    | None => <[status := []]> grouped
    end in
  alter (λ l, (l ++ [j])%list) status grouped'.

Definition group (jobs : list Job) : gmap string (list Job) :=
  foldl add_job grouped_init jobs.

(** The kanban section rendered from [jobs], the list [await getJobs()]
    returned: one column per entry of [columns], in order, with the cards
    of [grouped[col.key] || []]. *)
Definition Workboard (jobs : list Job) : list (string * list Job) :=
  let grouped := group jobs in
  map (λ col, (col.1, default [] (grouped !! col.1))) columns.

End WorkboardPage.

(** ** The State Store of the core *)

Module StateStore.

(** Modelled from the spec: the health report the Ingestion Gateway hands
    to the store (section 6), with [report_at] normalised to an instant;
    the gateway is not among the sources. *)
Record HealthReport : Type := {
  report_at : Z;
  hr_health : JSON;
  hr_status : JSON;
  hr_metrics : JSON
}.

(** Modelled from the spec: the part of the Robot record (section 3) the
    liveness property speaks of, the liveness instant and the reports kept
    for history, in arrival order; the store is not among the sources. *)
Record Robot : Type := {
  last_seen_at : Z;
  history : list HealthReport
}.

(** Modelled from the spec: [upsertHealthReport] of the State Store is not
    among the sources (only the reporter that feeds it and the pages that
    read it are). Following sections 3 and 4.1: a report for an unseen
    robot id creates the robot; every accepted report is stored; an older
    [report_at] than the stored one does not regress [last_seen_at]. *)
Definition upsertHealthReport (robot_id : string) (r : HealthReport)
    (store : gmap string Robot) : gmap string Robot :=
  match store !! robot_id with
  | None =>
      <[robot_id := {| last_seen_at := report_at r; history := [r] |}]> store
  | Some robot =>
      <[robot_id := {| last_seen_at := Z.max (last_seen_at robot) (report_at r);
                       history := (history robot ++ [r])%list |}]> store
  end.

(** Modelled from the spec: a sequence of accepted reports of one robot,
    applied in arrival order (the per-robot serialisation of section 4.1). *)
Definition ingest (robot_id : string) (rs : list HealthReport)
    (store : gmap string Robot) : gmap string Robot :=
  foldl (λ st r, upsertHealthReport robot_id r st) store rs.

Definition last_seen (store : gmap string Robot) (robot_id : string) : option Z :=
  last_seen_at <$> store !! robot_id.

(** [report_at] strictly increases along the sequence. *)
Fixpoint increasing (rs : list HealthReport) : Prop :=
  match rs with
  | [] => True
  | r :: rest =>
      match rest with
      | [] => True
      | r' :: _ => report_at r < report_at r' ∧ increasing rest
      end
  end.

End StateStore.

(** ** unnamed/part_000: the serverless handler *)

Module Handler.

(** [process.env.FEISHU_APP_TOKEN] and [process.env.FEISHU_TABLE_ID]. *)
Record Env : Type := {
  env_FEISHU_APP_TOKEN : option string;
  env_FEISHU_TABLE_ID : option string
}.

(** [process.env.X || fallback] for a string default. *)
Definition env_default (v : option string) (fallback : string) : string :=
  match v with
  | Some s => if String.eqb s "" then fallback else s
  | None => fallback
  end.

Definition APP_TOKEN (env : Env) : string :=
  env_default (env_FEISHU_APP_TOKEN env) "RQmBbdNJ3au4MCsFxP8c2vuenPf".

Definition TABLE_ID (env : Env) : string :=
  env_default (env_FEISHU_TABLE_ID env) "tblrUXp6i9aIWrn7".

Definition records_url (env : Env) : string :=
  "https://open.feishu.cn/open-apis/bitable/v1/apps/" ++ APP_TOKEN env
  ++ "/tables/" ++ TABLE_ID env ++ "/records".

(** [robot[k]]: the cell of field [k], [None] when the record has none. *)
Fixpoint cell (k : string) (robot : Fields) : option Cell :=
  match robot with
  | [] => None
  | (k', c) :: rest => if String.eqb k k' then Some c else cell k rest
  end.

(** ToBoolean of a cell; a printed instant is a non-empty string. *)
Definition cell_truthy (c : option Cell) : bool :=
  match c with
  | Some (CText s) => negb (String.eqb s "")
  | Some (CNum n) => negb (Z.eqb n 0)
  | Some (CIso _) => true
  | None => false
  end.

(** [robot[k] || fallback] *)
Definition cell_or (c : option Cell) (fallback : Cell) : Cell :=
  match c with
  | Some x => if cell_truthy c then x else fallback
  | None => fallback
  end.

(** [mapStatus(robot['Status'])]. A text cell goes through the table of
    [mapStatus]; the property key of a number or of a printed instant is
    its decimal or ISO spelling, which is no key of [statusMap], so such a
    truthy cell comes back as it is. *)
Definition mapStatus_cell (c : option Cell) : Cell :=
  match c with
  | Some (CText s) =>
      match mapStatus (LStr s) with
      | LStr v => CText v
      | _ => CText s
      end
  | Some x => if cell_truthy c then x else CText "离线"
  | None => CText "离线"
  end.

(** One element of the array the handler answers with. *)
Record RobotView : Type := {
  name : Cell;
  status : Cell;
  currentTask : Cell;
  progress : Cell;
  cpu : Cell;
  memory : Cell;
  lastSeen : option Cell;
  location : Cell;
  owner : Cell;
  version : Cell;
  issueStatus : Cell;
  tasksCompleted : Cell;
  uptime : Cell
}.

(** The body of the last [.map(robot => ({...}))]. *)
Definition view (robot : Fields) : RobotView :=
  {| name := cell_or (cell "Name" robot) (CText "");
     status := mapStatus_cell (cell "Status" robot);
     currentTask := cell_or (cell "当前任务" robot) (CText "-");
     progress := cell_or (cell "任务进度" robot) (CNum 0);
     cpu := cell_or (cell "CPU负载" robot) (CNum 0);
     memory := cell_or (cell "内存使用率" robot) (CNum 0);
     lastSeen := cell "Last Seen" robot;
     location := cell_or (cell "Location" robot) (CText "-");
     owner := cell_or (cell "Owner" robot) (CText "-");
     version := cell_or (cell "Version" robot) (CText "-");
     issueStatus := cell_or (cell "问题状态" robot) (CText "正常");
     tasksCompleted := cell_or (cell "今日完成任务" robot) (CNum 0);
     uptime := cell_or (cell "运行时长" robot) (CText "-") |}.

(** [.filter(robot => robot['Name'] && robot['Status'])] *)
Definition listed (robot : Fields) : bool :=
  cell_truthy (cell "Name" robot) && cell_truthy (cell "Status" robot).

Definition robots_of (items : list Fields) : list RobotView :=
  map view (List.filter listed items).

(** What the handler sends: [res.json(robots)], or
    [res.status(500).json({ error })]. *)
Inductive Reply : Type :=
  | Json200 (robots : list RobotView)
  | Json500 (error : string).

(** [module.exports = async function(req, res) { ... }] *)
Definition handler (env : Env) (up : Upstream) : M Reply :=
  token ← Serverless.getAccessToken (token_reply up) (token_latency up);
  if negb (token_truthy token) then mret (Json500 "Failed to get access token")
  else
    try_catch
      (response ← axios (records_url env) (records_reply up) (records_latency up);
       if (rr_code response =? 0)%Z then
         match rr_items response with
         | Some items => mret (Json200 (robots_of items))
         | None => throw "TypeError: Cannot read properties of undefined"
         end
       else mret (Json500 (rr_msg response)))
      (λ message, mret (Json500 message)).

End Handler.

(** ** reporter/reporter.js, second script: creating the Bitable tables *)

Module Setup.

(** [FEISHU_CONFIG], read from the process environment. *)
Record Env : Type := {
  APP_ID : option string;
  APP_SECRET : option string;
  BITABLE_APP_TOKEN : option string
}.

(** ToBoolean of an environment variable: unset and empty are falsy. *)
Definition set (v : option string) : bool :=
  match v with
  | Some s => negb (String.eqb s "")
  | None => false
  end.

(** A value inside a template literal: [undefined] prints as such. *)
Definition template (v : option string) : string :=
  match v with
  | Some s => s
  | None => "undefined"
  end.

Record Field : Type := {
  field_name : string;
  field_type : Z;                   (* 1 Text, 2 Number, 3 SingleSelect, 5 DateTime *)
  options : list string             (* field_property.options *)
}.

Record Table : Type := {
  table_name : string;
  fields : list Field
}.

Definition text (n : string) : Field :=
  {| field_name := n; field_type := 1; options := [] |}.
Definition number (n : string) : Field :=
  {| field_name := n; field_type := 2; options := [] |}.
Definition select (n : string) (opts : list string) : Field :=
  {| field_name := n; field_type := 3; options := opts |}.
Definition datetime (n : string) : Field :=
  {| field_name := n; field_type := 5; options := [] |}.

Definition ROBOTS_TABLE : Table :=
  {| table_name := "Robots";
     fields := [ text "Robot ID"; text "Name"; text "Location"; text "Owner"; text "IP";
                 text "OpenClaw Version"; datetime "Last Seen";
                 select "Status" ["Online"; "Degraded"; "Offline"];
                 number "Saturation"; text "Current Job"; text "Last Error" ] |}.

Definition JOBS_TABLE : Table :=
  {| table_name := "Jobs";
     fields := [ text "Job ID"; text "Robot ID"; text "Job Type";
                 datetime "Started At"; datetime "Ended At";
                 select "State" ["Running"; "Success"; "Fail"; "Cancelled"];
                 number "Progress"; number "Work Units"; text "Error Summary" ] |}.

Definition DAILY_SUMMARY_TABLE : Table :=
  {| table_name := "DailySummary";
     fields := [ datetime "Date"; text "Robot ID"; number "Completed Jobs";
                 number "Work Units Total"; number "Uptime Minutes";
                 number "Error Count"; text "AI Summary" ] |}.

Definition ALERTS_TABLE : Table :=
  {| table_name := "Alerts";
     fields := [ text "Alert ID"; text "Robot ID";
                 select "Severity" ["P0"; "P1"; "P2"];
                 select "Type" ["offline"; "error"; "spike"; "version_lag"];
                 text "Message"; datetime "Fired At";
                 select "Ack Status" ["pending"; "acknowledged"; "resolved"];
                 text "Ack By"; datetime "Ack At" ] |}.

(** The requests the script sends. *)
Inductive Request : Type :=
  | PostToken (app_id app_secret : option string)
  | PostTable (url : string) (authorization : string) (table : Table).

(** [response.data] of the table-creation endpoint. *)
Record TableReply : Type := {
  tb_code : Z;
  tb_data : JSON;
  tb_msg : string
}.

(** What the Feishu endpoints answer during one run: the token endpoint,
    and the table endpoint for each table name. *)
Record Net : Type := {
  token_endpoint : Http TokenReply;
  table_endpoint : string → Http TableReply
}.

(** A printed line, [console.log] or [console.error]; the text is given
    without the line breaks and the frame of the banner. *)
Inductive Line : Type :=
  | Log (text : string)
  | Err (text : string).

(** The trace of one run: requests sent and lines printed, oldest first. *)
Record Trace : Type := {
  sent : list Request;
  printed : list Line
}.

(** How a computation of the script ends: it returns, throws, or the
    process exits. *)
Inductive Outcome (A : Type) : Type :=
  | Returned (a : A)
  | Raised (message : string)
  | Exited (code : Z).
Arguments Returned {A} a.
Arguments Raised {A} message.
Arguments Exited {A} code.

Definition S (A : Type) : Type := Trace → Outcome A * Trace.

#[export] Instance S_ret : MRet S := λ A a t, (Returned a, t).
#[export] Instance S_bind : MBind S := λ A B f m t,
  match m t with
  | (Returned a, t') => f a t'
  | (Raised e, t') => (Raised e, t')
  | (Exited c, t') => (Exited c, t')
  end.

Definition raise {A} (message : string) : S A := λ t, (Raised message, t).
Definition exit {A} (code : Z) : S A := λ t, (Exited code, t).

Definition print (l : Line) : S unit := λ t,
  (Returned tt, {| sent := sent t; printed := (printed t ++ [l])%list |}).

(** [try { body } catch (e) { handler(e.message) }]; a process exit is not
    an exception. *)
Definition try_catch {A} (body : S A) (handler : string → S A) : S A := λ t,
  match body t with
  | (Raised e, t') => handler e t'
  | other => other
  end.

(** [await axios.post(...)]: the request is recorded; the call returns the
    reply or throws. *)
Definition post {A} (rq : Request) (reply : Http A) : S A := λ t,
  let t' := {| sent := (sent t ++ [rq])%list; printed := printed t |} in
  match reply with
  | Replied data => (Returned data, t')
  | Rejected e => (Raised e, t')
  end.

Definition getAccessToken (env : Env) (net : Net) : S string :=
  response ← post (PostToken (APP_ID env) (APP_SECRET env)) (token_endpoint net);
  if (tr_code response =? 0)%Z then mret (tenant_access_token response)
  else raise (tr_msg response).

Definition tables_url (env : Env) : string :=
  "https://open.feishu.cn/open-apis/bitable/v1/apps/"
  ++ template (BITABLE_APP_TOKEN env) ++ "/tables".

(** [createTable(token, tableConfig)]: the created table's data, or null. *)
Definition createTable (env : Env) (net : Net) (token : string) (tableConfig : Table)
    : S (option JSON) :=
  try_catch
    (response ← post (PostTable (tables_url env) ("Bearer " ++ token) tableConfig)
                     (table_endpoint net (table_name tableConfig));
     if (tb_code response =? 0)%Z then
       print (Log ("✅ 表 [" ++ table_name tableConfig ++ "] 创建成功"));;
       mret (Some (tb_data response))
     else
       print (Log ("⚠️ 表 [" ++ table_name tableConfig ++ "]: " ++ tb_msg response));;
       mret None)
    (λ message,
       print (Err ("❌ 创建表失败: " ++ message));;
       mret None).

Definition banner : Line := Log "飞书多维表格创建工具 需要先创建 Bitable App".

Definition main (env : Env) (net : Net) : S unit :=
  print banner;;
  (if negb (set (APP_ID env)) || negb (set (APP_SECRET env)) then
     print (Log "请设置环境变量:");;
     print (Log "  FEISHU_APP_ID=xxx");;
     print (Log "  FEISHU_APP_SECRET=xxx");;
     print (Log "  FEISHU_BITABLE_APP_TOKEN=xxx");;
     exit 1
   else mret tt);;
  token ← getAccessToken env net;
  print (Log "🔑 获取 Token 成功");;
  createTable env net token ROBOTS_TABLE;;
  createTable env net token JOBS_TABLE;;
  createTable env net token DAILY_SUMMARY_TABLE;;
  createTable env net token ALERTS_TABLE;;
  print (Log "✨ 完成！请记录各表的 table_id 并配置到 Fleet Hub").

(** [main().catch(console.error)] *)
Definition script (env : Env) (net : Net) : S unit :=
  try_catch (main env net) (λ message, print (Err message)).

Definition start : Trace := {| sent := []; printed := [] |}.

End Setup.

(** ** apps/web/app/page.tsx: the overview page *)

(** [x ?? y] on a possibly [undefined] operand: only [null] and [undefined]
    give way to [y]. *)
Definition nullish_or (x : option JSON) (y : JSON) : JSON :=
  match x with
  | None | Some JNull => y
  | Some v => v
  end.

(** [v?.k]: [undefined] when [v] is [null]. *)
Definition opt_chain (v : JSON) (k : string) : option JSON :=
  match v with
  | JNull => None
  | _ => field v k
  end.

Module OverviewPage.

(** [getOverview()]: [null] when the response is not ok. *)
Definition getOverview (res : Fetched) : Completion JSON :=
  if negb (ok res) then Normal JNull else json res.

(** [getRobots()] and [getAnomalies()]: an empty array when the response is
    not ok. *)
Definition getRobots (res : Fetched) : Completion JSON :=
  if negb (ok res) then Normal (JArr []) else json res.

Definition getAnomalies (res : Fetched) : Completion JSON :=
  if negb (ok res) then Normal (JArr []) else json res.

(** What a robot card shows. *)
Record Card : Type := {
  title : option JSON;              (* r.robot_id *)
  badge : string;                   (* r.ok ? 'OK' : 'ERROR' *)
  health_score : JSON;              (* r.health_score ?? '-' *)
  hostname : JSON;                  (* r.hostname || '-' *)
  platform : JSON;                  (* r.platform || '-' *)
  version : JSON;                   (* r.version || '-' *)
  last_seen_at : JSON;              (* r.last_seen_at || '-' *)
  href_id : option JSON             (* the id in `/robots/${r.robot_id}` *)
}.

(** The body of [robots.map((r) => ...)]; reading a property of a [null]
    element throws. *)
Definition card (r : JSON) : Completion Card :=
  match r with
  | JNull => Throw "TypeError: Cannot read properties of null"
  | _ =>
      Normal {| title := field r "robot_id";
                badge := if truthy_opt (field r "ok") then "OK" else "ERROR";
                health_score := nullish_or (field r "health_score") (JStr "-");
                hostname := or_else (field r "hostname") (JStr "-");
                platform := or_else (field r "platform") (JStr "-");
                version := or_else (field r "version") (JStr "-");
                last_seen_at := or_else (field r "last_seen_at") (JStr "-");
                href_id := field r "robot_id" |}
  end.

Fixpoint cards_of (l : list JSON) : Completion (list Card) :=
  match l with
  | [] => Normal []
  | r :: rest =>
      match card r with
      | Throw e => Throw e
      | Normal c =>
          match cards_of rest with
          | Throw e => Throw e
          | Normal cs => Normal (c :: cs)
          end
      end
  end.

(** [robots.map(...)]: [robots] must be an array. *)
Definition robot_cards (robots : JSON) : Completion (list Card) :=
  match robots with
  | JArr l => cards_of l
  | JNull => Throw "TypeError: Cannot read properties of null"
  | _ => Throw "TypeError: robots.map is not a function"
  end.

(** What the page shows. *)
Record View : Type := {
  online_count : JSON;
  total_count : JSON;
  error_count : JSON;
  today_work_units_total : JSON;
  avg_utilization_today : JSON;
  stuck_jobs_count : JSON;
  robots : list Card;
  no_anomalies : bool;              (* the line 暂无异常 is shown *)
  anomalies : list JSON
}.

(** [overview?.k ?? '-'] *)
Definition kpi (overview : JSON) (k : string) : JSON :=
  nullish_or (opt_chain overview k) (JStr "-").

Definition render (overview robots anomalies : JSON) : Completion View :=
  match robot_cards robots with
  | Throw e => Throw e
  | Normal cs =>
      match RobotDetailPage.cards (Some anomalies) with
      | Throw e => Throw e
      | Normal rows =>
          Normal {| online_count := kpi overview "online_count";
                    total_count := kpi overview "total_count";
                    error_count := kpi overview "error_count";
                    today_work_units_total := kpi overview "today_work_units_total";
                    avg_utilization_today := kpi overview "avg_utilization_today";
                    stuck_jobs_count := kpi overview "stuck_jobs_count";
                    robots := cs;
                    no_anomalies := Nat.eqb (length rows) 0;
                    anomalies := rows |}
      end
  end.

(** [Page()]: the three fetches are awaited together; a rejected one makes
    the page throw. *)
Definition Page (overview_res robots_res anomalies_res : Fetched) : Completion View :=
  match getOverview overview_res with
  | Throw e => Throw e
  | Normal overview =>
      match getRobots robots_res with
      | Throw e => Throw e
      | Normal robots =>
          match getAnomalies anomalies_res with
          | Throw e => Throw e
          | Normal anomalies => render overview robots anomalies
          end
      end
  end.

End OverviewPage.

(** ** apps/web/app/reports/daily/page.tsx: the daily report page *)

(** ToString of a JSON value, as a template literal prints it. Numbers are
    the integers of this embedding, printed in decimal (JavaScript turns to
    exponent notation from 1e21 on; such values lie outside the embedding);
    an array prints its elements separated by commas, [null] elements as
    nothing. *)
Fixpoint js_string (v : JSON) : string :=
  match v with
  | JNull => "null"
  | JBool true => "true"
  | JBool false => "false"
  | JNum n => pretty n
  | JStr s => s
  | JArr items =>
      (fix elements (l : list JSON) : string :=
         match l with
         | [] => ""
         | [x] => match x with JNull => "" | _ => js_string x end
         | x :: rest =>
             (match x with JNull => "" | _ => js_string x end)
             ++ "," ++ elements rest
         end) items
  | JObj _ => "[object Object]"
  end.

(** [`${x}`] for a possibly [undefined] value. *)
Definition interpolate (x : option JSON) : string :=
  match x with
  | None => "undefined"
  | Some v => js_string v
  end.

(** [strings.join(sep)] *)
Fixpoint join (sep : string) (strings : list string) : string :=
  match strings with
  | [] => ""
  | [s] => s
  | s :: rest => s ++ sep ++ join sep rest
  end.

Module DailyReportPage.

(** [getReport()]: [null] when the response is not ok. *)
Definition getReport (res : Fetched) : Completion JSON :=
  if negb (ok res) then Normal JNull else json res.

(** [`${e.code}(${e.count})`]; reading a property of [null] throws. *)
Definition top_error (e : JSON) : Completion string :=
  match e with
  | JNull => Throw "TypeError: Cannot read properties of null"
  | _ => Normal (interpolate (field e "code") ++ "(" ++ interpolate (field e "count") ++ ")")
  end.

Fixpoint top_error_strings (l : list JSON) : Completion (list string) :=
  match l with
  | [] => Normal []
  | e :: rest =>
      match top_error e with
      | Throw m => Throw m
      | Normal s =>
          match top_error_strings rest with
          | Throw m => Throw m
          | Normal ss => Normal (s :: ss)
          end
      end
  end.

(** [(r.top_errors || []).map(...).join(', ') || '-'] *)
Definition top_errors_cell (top_errors : option JSON) : Completion string :=
  match or_else top_errors (JArr []) with
  | JArr l =>
      match top_error_strings l with
      | Throw m => Throw m
      | Normal ss =>
          let joined := join ", " ss in
          Normal (if String.eqb joined "" then "-" else joined)
      end
  | _ => Throw "TypeError: map is not a function"
  end.

(** What a report card shows. *)
Record Card : Type := {
  robot_id : option JSON;
  date : option JSON;
  jobs_done : option JSON;
  work_units : option JSON;
  top_errors : string;
  summary : option JSON
}.

Definition card (r : JSON) : Completion Card :=
  match r with
  | JNull => Throw "TypeError: Cannot read properties of null"
  | _ =>
      match top_errors_cell (field r "top_errors") with
      | Throw m => Throw m
      | Normal cell =>
          Normal {| robot_id := field r "robot_id";
                    date := field r "date";
                    jobs_done := field r "jobs_done";
                    work_units := field r "work_units";
                    top_errors := cell;
                    summary := field r "summary" |}
      end
  end.

Fixpoint cards_of (l : list JSON) : Completion (list Card) :=
  match l with
  | [] => Normal []
  | r :: rest =>
      match card r with
      | Throw m => Throw m
      | Normal c =>
          match cards_of rest with
          | Throw m => Throw m
          | Normal cs => Normal (c :: cs)
          end
      end
  end.

Record View : Type := {
  cards : list Card;
  no_data : bool                    (* the card 暂无日报数据 is shown *)
}.

(** [const reports = data?.reports || []] and the section rendered from it. *)
Definition render (data : JSON) : Completion View :=
  match or_else (opt_chain data "reports") (JArr []) with
  | JArr l =>
      match cards_of l with
      | Throw m => Throw m
      | Normal cs => Normal {| cards := cs; no_data := Nat.eqb (length l) 0 |}
      end
  | _ => Throw "TypeError: reports.map is not a function"
  end.

Definition DailyReport (res : Fetched) : Completion View :=
  match getReport res with
  | Throw e => Throw e
  | Normal data => render data
  end.

End DailyReportPage.

(** ** Vocabulary of the statements *)

(** The contract of a cached credential with expiry check and
    refresh-on-miss, for one copy [G] of [getAccessToken]. *)
Definition cached_credential (G : Http TokenReply → Z → M (option string))
    (w : World) (reply : Http TokenReply) (latency : Z) : Prop :=
  (* hit: the cached token, and nothing else happens *)
  (cache_valid w = true → G reply latency w = (Normal (accessToken w), w)) ∧
  (* miss, provider success: one request, token cached with its expiry *)
  (∀ r, cache_valid w = false → reply = Replied r → tr_code r = 0 →
     ∃ w', G reply latency w = (Normal (Some (tenant_access_token r)), w') ∧
           accessToken w' = Some (tenant_access_token r) ∧
           tokenExpireTime w' = (clock w' + expire r * 1000) - 60 * 1000 ∧
           clock w' = clock w + latency ∧
           requests w' = (requests w ++ [token_url])%list) ∧
  (* miss, any failure: null is returned, nothing is thrown or cached *)
  (cache_valid w = false →
   (∀ r, reply = Replied r → tr_code r ≠ 0) →
     ∃ w', G reply latency w = (Normal None, w') ∧
           accessToken w' = accessToken w ∧
           tokenExpireTime w' = tokenExpireTime w ∧
           requests w' = (requests w ++ [token_url])%list).

(** "A token is cached and the current time is before tokenExpireTime". *)
Definition cached_and_fresh (w : World) (t : string) : Prop :=
  accessToken w = Some t ∧ t ≠ "" ∧ clock w < tokenExpireTime w.

(** The three ways the upstream source can fail during one request that
    starts in world [w]. *)
Definition token_unavailable (up : Upstream) (w : World) : Prop :=
  ∃ t w1, Express.getAccessToken (token_reply up) (token_latency up) w = (Normal t, w1)
          ∧ token_truthy t = false.

Definition bitable_throws (up : Upstream) : Prop :=
  ∃ e, records_reply up = Rejected e.

Definition bitable_nonzero (up : Upstream) : Prop :=
  ∃ r, records_reply up = Replied r ∧ rr_code r ≠ 0.

(** The line [report()] prints first. *)
Definition collecting_line (s : Reporter.Sample) : Reporter.Line :=
  Reporter.Log ("[" ++ Reporter.now_iso s ++ "] 正在采集机器人状态...").

(** The line [report()] prints when [postData] rejected with [message]. *)
Definition failure_line (s : Reporter.Sample) (message : string) : Reporter.Line :=
  Reporter.Error ("[" ++ Reporter.now_iso s ++ "] ❌ 上报失败: " ++ message).



(** A robot started without [ROBOT_ID] on a host whose name is empty. *)
Definition unnamed_host : Reporter.Env :=
  {| Reporter.env_FLEET_HUB_URL := None;
     Reporter.env_ROBOT_ID := None;
     Reporter.parsed_REPORT_INTERVAL := None;
     Reporter.os_hostname := "";
     Reporter.os_platform := "linux";
     Reporter.os_uptime := JNum 3600;
     Reporter.os_loadavg := JArr [JNum 2; JNum 1; JNum 1];
     Reporter.os_totalmem := JNum 17179869184;
     Reporter.os_freemem := JNum 8589934592 |}.

(** A robot with the settings of the README example. *)
Definition macbook : Reporter.Env :=
  {| Reporter.env_FLEET_HUB_URL := Some "http://localhost:8000";
     Reporter.env_ROBOT_ID := Some "guyuanyuan-macbook-air";
     Reporter.parsed_REPORT_INTERVAL := None;
     Reporter.os_hostname := "guyuanyuandeMacBook-Air.local";
     Reporter.os_platform := "darwin";
     Reporter.os_uptime := JNum 3600;
     Reporter.os_loadavg := JArr [JNum 2; JNum 1; JNum 1];
     Reporter.os_totalmem := JNum 17179869184;
     Reporter.os_freemem := JNum 8589934592 |}.

(** A collection in which [openclaw health] answered and [openclaw status]
    failed. *)
Definition status_down : Reporter.Sample :=
  {| Reporter.now_iso := "2026-02-19T11:12:35.892Z";
     Reporter.health_exec := Reporter.Printed (JObj [("ok", JBool true)]);
     Reporter.status_exec :=
       Reporter.Failed "Command failed: openclaw status --json 2>/dev/null" |}.



(** Three jobs of the README's robot: one running, one cancelled, one
    that carries no status. *)
Definition job_running : WorkboardPage.Job :=
  {| WorkboardPage.job_id := "job-8921"; WorkboardPage.status := LStr "RUNNING";
     WorkboardPage.other := [("title", JStr "物料转运-批次 #52")] |}.

Definition job_cancelled : WorkboardPage.Job :=
  {| WorkboardPage.job_id := "job-8922"; WorkboardPage.status := LStr "CANCELLED";
     WorkboardPage.other := [] |}.

Definition job_unlabelled : WorkboardPage.Job :=
  {| WorkboardPage.job_id := "job-8923"; WorkboardPage.status := LUndefined;
     WorkboardPage.other := [] |}.

(** A health report that carries only its instant. *)
Definition heartbeat (at' : Z) : StateStore.HealthReport :=
  {| StateStore.report_at := at'; StateStore.hr_health := JObj [("ok", JBool true)];
     StateStore.hr_status := JNull; StateStore.hr_metrics := JObj [] |}.


(** * Properties *)

(** ** mapStatus *)






(** ** The token cache *)

Lemma serverless_cached_credential w reply latency :
  cached_credential Serverless.getAccessToken w reply latency.
Proof.
  unfold cached_credential, Serverless.getAccessToken.
  repeat split.
  - intros Hv. cbv [mbind M_bind read mret M_ret]. rewrite Hv. reflexivity.
  - intros r Hv -> Hc.
    cbv [mbind M_bind read mret M_ret try_catch axios set_accessToken
         set_tokenExpireTime]. rewrite Hv. simpl.
    apply Z.eqb_eq in Hc. rewrite Hc. simpl.
    eexists. split; [reflexivity |]. simpl. repeat split; lia.
  - intros Hv Hfail.
    cbv [mbind M_bind read mret M_ret try_catch axios set_accessToken
         set_tokenExpireTime console_error]. rewrite Hv. simpl.
    destruct reply as [r | e]; simpl.
    + specialize (Hfail r eq_refl). apply Z.eqb_neq in Hfail. rewrite Hfail. simpl.
      eexists. split; [reflexivity |]. simpl. done.
    + eexists. split; [reflexivity |]. simpl. done.
Qed.

Lemma express_cached_credential w reply latency :
  cached_credential Express.getAccessToken w reply latency.
Proof.
  unfold cached_credential, Express.getAccessToken.
  repeat split.
  - intros Hv. cbv [mbind M_bind read mret M_ret]. rewrite Hv. reflexivity.
  - intros r Hv -> Hc.
    cbv [mbind M_bind read mret M_ret try_catch axios set_accessToken
         set_tokenExpireTime]. rewrite Hv. simpl.
    apply Z.eqb_eq in Hc. rewrite Hc. simpl.
    eexists. split; [reflexivity |]. simpl. repeat split; lia.
  - intros Hv Hfail.
    cbv [mbind M_bind read mret M_ret try_catch axios set_accessToken
         set_tokenExpireTime console_error throw]. rewrite Hv. simpl.
    destruct reply as [r | e]; simpl.
    + specialize (Hfail r eq_refl). apply Z.eqb_neq in Hfail. rewrite Hfail. simpl.
      eexists. split; [reflexivity |]. simpl. done.
    + eexists. split; [reflexivity |]. simpl. done.
Qed.

Lemma cache_valid_true (w : World) :
  cache_valid w = true ↔ ∃ t, cached_and_fresh w t.
Proof.
  unfold cache_valid, cached_and_fresh, token_truthy. split.
  - intros H. apply andb_true_iff in H as [Ht Hc].
    destruct (accessToken w) as [t |]; [| discriminate].
    exists t. repeat split; [| lia].
    intros ->. discriminate.
  - intros (t & -> & Hne & Hlt).
    apply andb_true_iff. split; [| lia].
    destruct (String.eqb_spec t ""); [contradiction | reflexivity].
Qed.

(** C3. Both copies of [getAccessToken] are a process-wide cached credential
    with expiry check and refresh-on-miss: a cached, unexpired token is
    returned without any network request; otherwise exactly one token
    request is made and, on code 0, the token is cached with
    [tokenExpireTime] 60 seconds before the provider-reported expiry; on any
    failure (rejected request or non-zero code) the result is null, never an
    exception, and the cache is left as it was. *)
Theorem getAccessToken_cached_credential
    (G : Http TokenReply → Z → M (option string))
    (w : World) (reply : Http TokenReply) (latency : Z) :
  G = Serverless.getAccessToken ∨ G = Express.getAccessToken →
  (∀ t, cached_and_fresh w t → G reply latency w = (Normal (Some t), w)) ∧
  ((¬ ∃ t, cached_and_fresh w t) →
     (∀ r, reply = Replied r → tr_code r = 0 →
        ∃ w', G reply latency w = (Normal (Some (tenant_access_token r)), w') ∧
              accessToken w' = Some (tenant_access_token r) ∧
              tokenExpireTime w' = (clock w' + expire r * 1000) - 60 * 1000 ∧
              clock w' = clock w + latency ∧
              requests w' = (requests w ++ [token_url])%list) ∧
     ((∀ r, reply = Replied r → tr_code r ≠ 0) →
        ∃ w', G reply latency w = (Normal None, w') ∧
              accessToken w' = accessToken w ∧
              tokenExpireTime w' = tokenExpireTime w ∧
              requests w' = (requests w ++ [token_url])%list)).
Proof.
  intros HG.
  assert (HC : cached_credential G w reply latency).
  { destruct HG as [-> | ->];
      [apply serverless_cached_credential | apply express_cached_credential]. }
  destruct HC as (Hhit & Hok & Hfail).
  split.
  - intros t Ht. rewrite Hhit.
    + destruct Ht as (-> & _). reflexivity.
    + apply cache_valid_true. by exists t.
  - intros Hmiss.
    assert (Hv : cache_valid w = false).
    { destruct (cache_valid w) eqn:E; [| reflexivity].
      exfalso. apply Hmiss. by apply cache_valid_true. }
    split.
    + intros r Hr Hc. by apply Hok.
    + intros Hf. by apply Hfail.
Qed.

Lemma getAccessToken_cached_credential_witness :
  Express.getAccessToken (Rejected "ECONNRESET") 120
    {| accessToken := Some "t-abc"; tokenExpireTime := 5000; clock := 1000;
       requests := []; console := [] |}
  = (Normal (Some "t-abc"),
     {| accessToken := Some "t-abc"; tokenExpireTime := 5000; clock := 1000;
        requests := []; console := [] |}).
Proof.
  apply (getAccessToken_cached_credential Express.getAccessToken
           {| accessToken := Some "t-abc"; tokenExpireTime := 5000; clock := 1000;
              requests := []; console := [] |} (Rejected "ECONNRESET") 120).
  - right. reflexivity.
  - split; [reflexivity | split; [discriminate | reflexivity]].
Defined.

Example getAccessToken_refresh :
  Express.getAccessToken
    (Replied {| tr_code := 0; tenant_access_token := "t-new"; expire := 7200; tr_msg := "ok" |})
    120 boot
  = (Normal (Some "t-new"),
     {| accessToken := Some "t-new"; tokenExpireTime := 120 + 7140 * 1000; clock := 120;
        requests := [token_url]; console := [] |}).
Proof. reflexivity. Qed.

(** ** GET /api/robots on the Express server *)

(** [getAccessToken] always returns: every exception is caught inside. *)
Lemma express_getAccessToken_returns reply latency w :
  ∃ t w1, Express.getAccessToken reply latency w = (Normal t, w1).
Proof.
  unfold Express.getAccessToken.
  cbv [mbind M_bind read mret M_ret try_catch axios set_accessToken
       set_tokenExpireTime console_error throw].
  destruct (cache_valid w); [by eexists _, _ |].
  destruct reply as [r | e]; simpl; [| by eexists _, _].
  destruct (tr_code r =? 0)%Z; by eexists _, _.
Qed.

(** Picks the world the run ended in as the witness. *)
Ltac take_world :=
  match goal with
  | |- ∃ w', (_, ?W) = _ => exists W; reflexivity
  end.

Lemma getRecords_falls_back (up : Upstream) (w : World) :
  token_unavailable up w ∨ bitable_throws up ∨ bitable_nonzero up →
  ∃ w', getRecords up w = (Normal (getMockData (clock w')), w').
Proof.
  intros Hfail. unfold getRecords.
  destruct (express_getAccessToken_returns (token_reply up) (token_latency up) w)
    as (t & w1 & Htok).
  cbv [mbind M_bind]. rewrite Htok.
  destruct (token_truthy t) eqn:Ht; simpl.
  - destruct Hfail as [(t' & w1' & Htok' & Hf) | [(e & He) | (r & Hr & Hc)]].
    + rewrite Htok in Htok'. injection Htok' as <- <-. congruence.
    + rewrite He.
      cbv [try_catch axios mbind M_bind console_error mock read mret M_ret]. simpl.
      take_world.
    + rewrite Hr. apply Z.eqb_neq in Hc.
      cbv [try_catch axios mbind M_bind console_error mock read mret M_ret]. simpl.
      rewrite Hc. simpl. take_world.
  - cbv [mock mbind M_bind read mret M_ret]. take_world.
Qed.

Lemma getRecords_returns (up : Upstream) (w : World) :
  ∃ w' records, getRecords up w = (Normal records, w').
Proof.
  unfold getRecords.
  destruct (express_getAccessToken_returns (token_reply up) (token_latency up) w)
    as (t & w1 & Htok).
  cbv [mbind M_bind]. rewrite Htok.
  destruct (token_truthy t); simpl.
  - cbv [try_catch axios mbind M_bind console_error mock read mret M_ret throw].
    destruct (records_reply up) as [r | e]; simpl; [| by eexists _, _].
    destruct (rr_code r =? 0)%Z; simpl; [| by eexists _, _].
    destruct (rr_items r); by eexists _, _.
  - cbv [mock mbind M_bind read mret M_ret]. by eexists _, _.
Qed.

(** A cold or expired cache and a token endpoint that rejects or answers
    with a non-zero code: the token cannot be obtained. *)
Lemma token_endpoint_down (up : Upstream) (w : World) :
  cache_valid w = false →
  (∀ r, token_reply up = Replied r → tr_code r ≠ 0) →
  token_unavailable up w.
Proof.
  intros Hv Hfail.
  destruct (express_cached_credential w (token_reply up) (token_latency up))
    as (_ & _ & Hnull).
  destruct (Hnull Hv Hfail) as (w' & Hrun & _).
  exists None, w'. split; [exact Hrun | reflexivity].
Qed.

(** C8. [GET /api/robots] never fails because of the upstream source: it
    always answers 200 with an array of records; and when the Feishu token
    cannot be obtained, the Bitable request throws, or Bitable answers with
    a non-zero code, [getRecords] returns the two-record mock dataset, so
    the array is that non-empty dataset. *)
Theorem api_robots_survives_upstream_failure (up : Upstream) (w : World) :
  ∃ w' records,
    getRecords up w = (Normal records, w') ∧
    api_robots up w = (Normal {| res_status := 200; res_body := Robots records |}, w') ∧
    (token_unavailable up w ∨ bitable_throws up ∨ bitable_nonzero up →
       records = getMockData (clock w') ∧ length records = 2%nat ∧ records ≠ []).
Proof.
  destruct (getRecords_returns up w) as (w' & records & Hrec).
  exists w', records.
  split; [exact Hrec |]. split.
  - unfold api_robots. cbv [try_catch mbind M_bind mret M_ret].
    rewrite Hrec. reflexivity.
  - intros Hfail.
    destruct (getRecords_falls_back up w Hfail) as (w2 & Hmock).
    rewrite Hrec in Hmock. injection Hmock as -> ->.
    split; [reflexivity |]. split; [reflexivity | discriminate].
Qed.

Lemma api_robots_survives_upstream_failure_witness :
  ∃ w' records,
    api_robots {| token_reply := Rejected "ENOTFOUND"; token_latency := 40;
                  records_reply := Rejected "unreachable"; records_latency := 0 |} boot
      = (Normal {| res_status := 200; res_body := Robots records |}, w') ∧
    records = getMockData (clock w') ∧ length records = 2%nat.
Proof.
  destruct (api_robots_survives_upstream_failure
              {| token_reply := Rejected "ENOTFOUND"; token_latency := 40;
                 records_reply := Rejected "unreachable"; records_latency := 0 |} boot)
    as (w' & records & _ & Hres & Hmock).
  exists w', records. split; [exact Hres |].
  destruct Hmock as (H1 & H2 & _); [| by split].
  left. apply token_endpoint_down; [reflexivity |].
  intros r Hr. discriminate Hr.
Defined.

(** ** The reporter *)

Section ReporterProperties.
Import Reporter.

Lemma env_or_nonempty (v : option string) (fallback : string) :
  fallback ≠ "" → env_or v fallback ≠ "".
Proof.
  intros Hf. unfold env_or.
  destruct v as [s |]; [| exact Hf].
  destruct (String.eqb_spec s ""); [exact Hf | assumption].
Qed.

Lemma postData_resolves_iff (url : string) (data : JSON) (d : Delivery) :
  (∃ r, postData url data d = Resolved r) ↔
  (∃ code body, d = ResEnd code body ∧ 200 ≤ code < 300).
Proof.
  split.
  - intros [r Hr]. destruct d as [| m | | code body]; simpl in Hr; try discriminate.
    destruct (200 <=? code)%Z eqn:E1; destruct (code <? 300)%Z eqn:E2;
      simpl in Hr; try discriminate.
    exists code, body. split; [reflexivity | lia].
  - intros (code & body & -> & Hlo & Hhi). simpl.
    assert ((200 <=? code)%Z = true) as -> by lia.
    assert ((code <? 300)%Z = true) as -> by lia.
    simpl. by eexists.
Qed.

Lemma postData_settles (url : string) (data : JSON) (d : Delivery) :
  (∃ r, postData url data d = Resolved r) ∨ (∃ m, postData url data d = RejectedWith m).
Proof.
  destruct (postData url data d) as [r | m]; [left | right]; by eexists.
Qed.

(** C4. [postData] resolves exactly when the response ended with a status
    code in [200, 300), and rejects for every other status code, for a
    request error and for a timeout; [report()] issues one POST, catches
    the rejection, logs it, and completes normally. *)
Theorem delivery_success_is_2xx (env : Env) (s : Sample) (d : Delivery)
    (url : string) (data : JSON) :
  ((∃ r, postData url data d = Resolved r) ↔
   (∃ code body, d = ResEnd code body ∧ 200 ≤ code < 300)) ∧
  ((∃ m, postData url data d = RejectedWith m) ↔
   ¬ (∃ code body, d = ResEnd code body ∧ 200 ≤ code < 300)) ∧
  (∀ payload, build_payload env s = Normal payload →
     completion (report env s d) = Normal tt ∧
     posts (report env s d) = [(ingest_url env, payload)] ∧
     (∀ m, postData (ingest_url env) payload d = RejectedWith m →
           lines (report env s d) = [collecting_line s; failure_line s m])).
Proof.
  split; [apply postData_resolves_iff |].
  split.
  - rewrite <- (postData_resolves_iff url data d). split.
    + intros [m Hm] [r Hr]. congruence.
    + intros Hno. destruct (postData_settles url data d) as [Hr | Hm];
        [contradiction | exact Hm].
  - intros payload Hp. unfold report. rewrite Hp.
    destruct (postData (ingest_url env) payload d) as [r | m'] eqn:E; simpl.
    + repeat split. intros m Hm. discriminate.
    + repeat split. intros m Hm. injection Hm as <-. reflexivity.
Qed.

Lemma delivery_success_is_2xx_witness :
  completion (report macbook status_down (ResEnd 503 "busy")) = Normal tt ∧
  length (posts (report macbook status_down (ResEnd 503 "busy"))) = 1%nat ∧
  lines (report macbook status_down (ResEnd 503 "busy")) =
    [collecting_line status_down; failure_line status_down "HTTP 503: busy"].
Proof.
  destruct (delivery_success_is_2xx macbook status_down (ResEnd 503 "busy") "" JNull)
    as (_ & _ & H).
  destruct (H _ eq_refl) as (Hc & Hp & Hl).
  split; [exact Hc |]. split; [rewrite Hp; reflexivity |].
  apply Hl. vm_compute. reflexivity.
Defined.

(** *** The payload *)

Lemma build_payload_total (env : Env) (s : Sample) :
  status_exec s ≠ Printed JNull → ∃ payload, build_payload env s = Normal payload.
Proof.
  intros Hs. unfold build_payload, payload_status, getOpenClawStatus.
  destruct (status_exec s) as [v | m]; simpl; [| by eexists].
  destruct v; [by destruct Hs | ..]; simpl; by eexists.
Qed.

(** C2, as the code has it. Every payload [report()] builds for
    [POST /api/ingest/health] has exactly the fields robot_id, hostname,
    platform, report_at, health, status and metrics; robot_id is the
    ROBOT_ID variable when it is set and not empty and the OS hostname
    otherwise, hence non-empty whenever the hostname is; report_at is the
    timestamp taken when the collection started; status is null whenever
    the status collection failed with a (non-empty) error message. *)
Theorem payload_fields (env : Env) (s : Sample) (payload : JSON) :
  build_payload env s = Normal payload →
  ∃ health status metrics,
    payload = JObj [("robot_id", JStr (ROBOT_ID (CONFIG env)));
                    ("hostname", JStr (os_hostname env));
                    ("platform", JStr (os_platform env));
                    ("report_at", JStr (now_iso s));
                    ("health", health);
                    ("status", status);
                    ("metrics", metrics)] ∧
    (∀ r, env_ROBOT_ID env = Some r → r ≠ "" → ROBOT_ID (CONFIG env) = r) ∧
    (env_ROBOT_ID env = None ∨ env_ROBOT_ID env = Some "" →
       ROBOT_ID (CONFIG env) = os_hostname env) ∧
    (os_hostname env ≠ "" → ROBOT_ID (CONFIG env) ≠ "") ∧
    (∀ m, status_exec s = Failed m → m ≠ "" → status = JNull).
Proof.
  unfold build_payload. intros Hp.
  destruct (payload_status (getOpenClawStatus (status_exec s))) as [st | e] eqn:Hst;
    [| discriminate].
  injection Hp as <-.
  eexists _, st, _. split; [reflexivity |].
  split.
  { intros r Hr Hne. simpl. rewrite Hr. simpl.
    destruct (String.eqb_spec r ""); [contradiction | reflexivity]. }
  split.
  { intros [Hr | Hr]; simpl; rewrite Hr; reflexivity. }
  split.
  { intros Hh. simpl. by apply env_or_nonempty. }
  intros m Hm Hne. rewrite Hm in Hst. simpl in Hst.
  unfold payload_status in Hst. simpl in Hst.
  destruct (String.eqb_spec m ""); [contradiction |].
  simpl in Hst. by injection Hst as <-.
Qed.

Lemma payload_fields_witness :
  ∃ health status metrics,
    JObj [("robot_id", JStr "guyuanyuan-macbook-air");
          ("hostname", JStr "guyuanyuandeMacBook-Air.local");
          ("platform", JStr "darwin");
          ("report_at", JStr "2026-02-19T11:12:35.892Z");
          ("health", JObj [("ok", JBool true)]);
          ("status", JNull);
          ("metrics", JObj [("uptime", JNum 3600);
                            ("loadavg", JArr [JNum 2; JNum 1; JNum 1]);
                            ("totalmem", JNum 17179869184);
                            ("freemem", JNum 8589934592)])]
    = JObj [("robot_id", JStr (ROBOT_ID (CONFIG macbook)));
            ("hostname", JStr (os_hostname macbook));
            ("platform", JStr (os_platform macbook));
            ("report_at", JStr (now_iso status_down));
            ("health", health);
            ("status", status);
            ("metrics", metrics)] ∧
    (∀ r, env_ROBOT_ID macbook = Some r → r ≠ "" → ROBOT_ID (CONFIG macbook) = r) ∧
    (env_ROBOT_ID macbook = None ∨ env_ROBOT_ID macbook = Some "" →
       ROBOT_ID (CONFIG macbook) = os_hostname macbook) ∧
    (os_hostname macbook ≠ "" → ROBOT_ID (CONFIG macbook) ≠ "") ∧
    (∀ m, status_exec status_down = Failed m → m ≠ "" → status = JNull).
Proof.
  apply (payload_fields macbook status_down). reflexivity.
Defined.

(** C2 as the specification words it fails: with ROBOT_ID unset on a host
    whose name is empty, the payload that is POSTed has an empty
    robot_id. *)
Lemma robot_id_empty_on_unnamed_host :
  ∃ payload,
    posts (report unnamed_host status_down (ResEnd 200 "")) =
      [("http://localhost:3000/api/ingest/health", payload)] ∧
    env_ROBOT_ID unnamed_host = None ∧
    field payload "robot_id" = Some (JStr "").
Proof.
  eexists. split; [reflexivity |]. split; reflexivity.
Qed.

(** *** The polling loop *)





End ReporterProperties.

(** ** The robot detail page *)

Section RobotDetailProperties.
Import RobotDetailPage.



Lemma or_else_missing (v : option JSON) (d : JSON) :
  truthy_opt v = false → or_else v d = d.
Proof.
  unfold or_else. destruct v as [j |]; simpl; [| reflexivity].
  intros ->. reflexivity.
Qed.




End RobotDetailProperties.

(** ** The workboard page *)

Section WorkboardProperties.
Import WorkboardPage.












Example Workboard_of_three :
  Workboard [job_running; job_cancelled; job_unlabelled] =
    [ ("BACKLOG", [job_unlabelled]); ("ASSIGNED", []); ("RUNNING", [job_running]);
      ("BLOCKED", []); ("DONE", []); ("FAILED", []) ].
Proof. vm_compute. reflexivity. Qed.

End WorkboardProperties.

(** ** Liveness in the State Store *)

Section StateStoreProperties.
Import StateStore.

Lemma upsert_last_seen (robot_id : string) (r : HealthReport) (store : gmap string Robot) :
  last_seen (upsertHealthReport robot_id r store) robot_id =
    Some (match last_seen store robot_id with
          | Some t => Z.max t (report_at r)
          | None => report_at r
          end).
Proof.
  unfold last_seen, upsertHealthReport.
  destruct (store !! robot_id) as [robot |]; simpl;
    by rewrite lookup_insert_eq.
Qed.

Lemma increasing_tail (r : HealthReport) (rs : list HealthReport) :
  increasing (r :: rs) → increasing rs.
Proof. destruct rs as [| r' rs]; simpl; [done | by intros [_ H]]. Qed.

Lemma increasing_head (r r' : HealthReport) (rs : list HealthReport) :
  increasing (r :: rs) → head rs = Some r' → report_at r < report_at r'.
Proof.
  destruct rs as [| r1 rs]; simpl; [discriminate |].
  intros [Hlt _] [= <-]. exact Hlt.
Qed.

Lemma ingest_increasing (robot_id : string) (rs : list HealthReport) (r : HealthReport) :
  ∀ store : gmap string Robot,
    increasing (rs ++ [r]) →
    (∀ t r0, last_seen store robot_id = Some t → head (rs ++ [r]) = Some r0 →
             t < report_at r0) →
    last_seen (ingest robot_id (rs ++ [r]) store) robot_id = Some (report_at r).
Proof.
  induction rs as [| r0 rs IH]; intros store Hinc Hold; simpl.
  - rewrite upsert_last_seen.
    destruct (last_seen store robot_id) as [t |] eqn:E; [| reflexivity].
    specialize (Hold t r eq_refl eq_refl). f_equal. lia.
  - apply IH.
    + exact (increasing_tail _ _ Hinc).
    + intros t r1 Ht Hr1. rewrite upsert_last_seen in Ht.
      pose proof (increasing_head _ _ _ Hinc Hr1) as Hlt.
      destruct (last_seen store robot_id) as [t0 |] eqn:E.
      * specialize (Hold t0 r0 eq_refl eq_refl). injection Ht as <-. lia.
      * injection Ht as <-. exact Hlt.
Qed.

(** C1. [last_seen_at] of a robot never decreases when a health report is
    accepted; after a sequence of reports with increasing [report_at] it
    equals the latest [report_at]; a report older than the stored instant
    is kept in the history and leaves [last_seen_at] unchanged. *)
Theorem last_seen_at_monotone (store : gmap string Robot) (robot_id : string) :
  (∀ r t, last_seen store robot_id = Some t →
     ∃ t', last_seen (upsertHealthReport robot_id r store) robot_id = Some t' ∧ (t ≤ t')%Z) ∧
  (∀ rs r, increasing (rs ++ [r]) →
     (∀ t r0, last_seen store robot_id = Some t → head (rs ++ [r]) = Some r0 →
              t < report_at r0) →
     last_seen (ingest robot_id (rs ++ [r]) store) robot_id = Some (report_at r)) ∧
  (∀ r robot, store !! robot_id = Some robot → report_at r < last_seen_at robot →
     ∃ robot', upsertHealthReport robot_id r store !! robot_id = Some robot' ∧
               last_seen_at robot' = last_seen_at robot ∧
               history robot' = (history robot ++ [r])%list).
Proof.
  split; [| split].
  - intros r t Ht. rewrite upsert_last_seen, Ht.
    eexists. split; [reflexivity | lia].
  - intros rs r. apply ingest_increasing.
  - intros r robot Hrobot Hold. unfold upsertHealthReport. rewrite Hrobot.
    rewrite lookup_insert_eq. eexists. split; [reflexivity |].
    simpl. split; [lia | reflexivity].
Qed.

Lemma last_seen_at_monotone_witness :
  last_seen (ingest "r1" [heartbeat 100; heartbeat 200] ∅) "r1" = Some 200 ∧
  (∃ robot',
     upsertHealthReport "r1" (heartbeat 150)
       (ingest "r1" [heartbeat 100; heartbeat 200] ∅) !! "r1" = Some robot' ∧
     last_seen_at robot' = 200 ∧
     history robot' = [heartbeat 100; heartbeat 200; heartbeat 150]).
Proof.
  split.
  - destruct (last_seen_at_monotone ∅ "r1") as (_ & Hseq & _).
    apply (Hseq [heartbeat 100] (heartbeat 200)).
    + simpl. split; [reflexivity | exact I].
    + intros t r0 Ht. discriminate Ht.
  - destruct (last_seen_at_monotone (ingest "r1" [heartbeat 100; heartbeat 200] ∅) "r1")
      as (_ & _ & Hold).
    apply (Hold (heartbeat 150)
             {| last_seen_at := 200; history := [heartbeat 100; heartbeat 200] |});
      [vm_compute; reflexivity | reflexivity].
Defined.

End StateStoreProperties.

(** * Further properties of the sources *)

(** ** mapStatus, applied to its own output *)




(** ** The token cache across calls *)

(** A call that misses the cache issues exactly one token request,
    whatever the provider answers. *)
Lemma miss_requests_once (G : Http TokenReply → Z → M (option string))
    (w : World) (reply : Http TokenReply) (latency : Z) :
  cached_credential G w reply latency →
  cache_valid w = false →
  requests (G reply latency w).2 = (requests w ++ [token_url])%list.
Proof.
  intros (_ & Hok & Hfail) Hv.
  destruct reply as [r | e].
  - destruct (Z.eq_dec (tr_code r) 0) as [Hc | Hc].
    + destruct (Hok r Hv eq_refl Hc) as (w' & -> & _ & _ & _ & Hreq). exact Hreq.
    + destruct (Hfail Hv) as (w' & -> & _ & _ & Hreq); [| exact Hreq].
      intros r' [= <-]. exact Hc.
  - destruct (Hfail Hv) as (w' & -> & _ & _ & Hreq); [| exact Hreq].
    intros r' Hr'. discriminate Hr'.
Qed.

(** Refresh, then hit. After a refresh that obtained a non-empty token, any
    later call made before [expire - 60] seconds have passed returns that
    token and leaves the world untouched: no request, whatever the provider
    would answer. *)
Theorem refresh_then_hit
    (G : Http TokenReply → Z → M (option string))
    (w w1 w2 : World) (r : TokenReply) (latency : Z)
    (reply2 : Http TokenReply) (latency2 : Z) :
  G = Serverless.getAccessToken ∨ G = Express.getAccessToken →
  cache_valid w = false →
  tr_code r = 0 →
  tenant_access_token r ≠ "" →
  (G (Replied r) latency w).2 = w1 →
  accessToken w2 = accessToken w1 →
  tokenExpireTime w2 = tokenExpireTime w1 →
  clock w2 < clock w1 + (expire r - 60) * 1000 →
  G reply2 latency2 w2 = (Normal (Some (tenant_access_token r)), w2).
Proof.
  intros HG Hv Hc Hne Hw1 Htok Hexp Hclock.
  assert (HC : ∀ w reply latency, cached_credential G w reply latency).
  { destruct HG as [-> | ->]; intros;
      [apply serverless_cached_credential | apply express_cached_credential]. }
  destruct (HC w (Replied r) latency) as (_ & Hok & _).
  destruct (Hok r Hv eq_refl Hc) as (w' & Hrun & Ht & He & Hcl & _).
  rewrite Hrun in Hw1. simpl in Hw1. subst w'.
  destruct (HC w2 reply2 latency2) as (Hhit & _ & _).
  rewrite Hhit.
  - by rewrite Htok, Ht.
  - apply cache_valid_true. exists (tenant_access_token r).
    unfold cached_and_fresh. rewrite Htok, Hexp, Ht, He.
    split; [reflexivity |]. split; [exact Hne | lia].
Qed.

Lemma refresh_then_hit_witness :
  Express.getAccessToken (Rejected "offline") 0
    {| accessToken := Some "t-new"; tokenExpireTime := 120 + 7140 * 1000;
       clock := 3600000; requests := [token_url]; console := [] |}
  = (Normal (Some "t-new"),
     {| accessToken := Some "t-new"; tokenExpireTime := 120 + 7140 * 1000;
        clock := 3600000; requests := [token_url]; console := [] |}).
Proof.
  apply (refresh_then_hit Express.getAccessToken boot
           {| accessToken := Some "t-new"; tokenExpireTime := 120 + 7140 * 1000;
              clock := 120; requests := [token_url]; console := [] |}
           {| accessToken := Some "t-new"; tokenExpireTime := 120 + 7140 * 1000;
              clock := 3600000; requests := [token_url]; console := [] |}
           {| tr_code := 0; tenant_access_token := "t-new"; expire := 7200; tr_msg := "ok" |}
           120 (Rejected "offline") 0);
    try reflexivity.
  - by right.
  - discriminate.
Defined.

(** A token that cannot be reused. When the provider's token is empty or
    its lifetime is at most 60 seconds, the refreshed cache is already
    stale: every later call (the clock not running backwards) asks the
    provider again. *)
Theorem unusable_token_is_requested_again
    (G : Http TokenReply → Z → M (option string))
    (w w1 w2 : World) (r : TokenReply) (latency : Z)
    (reply2 : Http TokenReply) (latency2 : Z) :
  G = Serverless.getAccessToken ∨ G = Express.getAccessToken →
  cache_valid w = false →
  tr_code r = 0 →
  tenant_access_token r = "" ∨ (expire r ≤ 60)%Z →
  (G (Replied r) latency w).2 = w1 →
  accessToken w2 = accessToken w1 →
  tokenExpireTime w2 = tokenExpireTime w1 →
  (clock w1 ≤ clock w2)%Z →
  requests (G reply2 latency2 w2).2 = (requests w2 ++ [token_url])%list.
Proof.
  intros HG Hv Hc Hbad Hw1 Htok Hexp Hclock.
  assert (HC : ∀ w reply latency, cached_credential G w reply latency).
  { destruct HG as [-> | ->]; intros;
      [apply serverless_cached_credential | apply express_cached_credential]. }
  destruct (HC w (Replied r) latency) as (_ & Hok & _).
  destruct (Hok r Hv eq_refl Hc) as (w' & Hrun & Ht & He & Hcl & _).
  rewrite Hrun in Hw1. simpl in Hw1. subst w'.
  apply miss_requests_once; [apply HC |].
  unfold cache_valid. rewrite Htok, Hexp, Ht, He.
  destruct Hbad as [-> | Hshort]; [reflexivity |].
  apply andb_false_iff. right. lia.
Qed.

Lemma unusable_token_is_requested_again_witness :
  requests
    (Express.getAccessToken (Rejected "offline") 5
       {| accessToken := Some "t-short"; tokenExpireTime := 120 + (30 - 60) * 1000;
          clock := 120; requests := [token_url]; console := [] |}).2
  = [token_url; token_url].
Proof.
  apply (unusable_token_is_requested_again Express.getAccessToken boot
           {| accessToken := Some "t-short"; tokenExpireTime := 120 + (30 - 60) * 1000;
              clock := 120; requests := [token_url]; console := [] |}
           {| accessToken := Some "t-short"; tokenExpireTime := 120 + (30 - 60) * 1000;
              clock := 120; requests := [token_url]; console := [] |}
           {| tr_code := 0; tenant_access_token := "t-short"; expire := 30; tr_msg := "ok" |}
           120 (Rejected "offline") 5);
    try reflexivity; try (right; simpl; lia); try (simpl; lia).
  by right.
Defined.

(** ** The two copies of getAccessToken, side by side *)

(** The serverless and the Express copy return the same value and leave the
    same cache, clock and request trace. They differ in what they print:
    when the provider answers with a non-zero code, the Express copy logs
    the failure and the serverless copy stays silent. *)
Theorem getAccessToken_copies_agree (w : World) (reply : Http TokenReply) (latency : Z) :
  (Serverless.getAccessToken reply latency w).1 = (Express.getAccessToken reply latency w).1 ∧
  accessToken (Serverless.getAccessToken reply latency w).2
    = accessToken (Express.getAccessToken reply latency w).2 ∧
  tokenExpireTime (Serverless.getAccessToken reply latency w).2
    = tokenExpireTime (Express.getAccessToken reply latency w).2 ∧
  clock (Serverless.getAccessToken reply latency w).2
    = clock (Express.getAccessToken reply latency w).2 ∧
  requests (Serverless.getAccessToken reply latency w).2
    = requests (Express.getAccessToken reply latency w).2 ∧
  (∀ r, cache_valid w = false → reply = Replied r → tr_code r ≠ 0 →
     console (Serverless.getAccessToken reply latency w).2 = console w ∧
     console (Express.getAccessToken reply latency w).2 =
       (console w ++ ["Error getting access token: Failed to get token: " +:+ tr_msg r])%list).
Proof.
  unfold Serverless.getAccessToken, Express.getAccessToken.
  cbv [mbind M_bind read mret M_ret try_catch axios set_accessToken
       set_tokenExpireTime console_error throw].
  destruct (cache_valid w) eqn:Hv.
  - repeat split; try reflexivity; intros; simplify_eq.
  - destruct reply as [r | e]; simpl.
    + destruct (tr_code r =? 0)%Z eqn:Hc; simpl.
      * apply Z.eqb_eq in Hc.
        repeat split; try reflexivity; intros; simplify_eq.
      * repeat split; try reflexivity; intros; simplify_eq; reflexivity.
    + repeat split; try reflexivity; intros; simplify_eq.
Qed.

Lemma getAccessToken_copies_agree_witness :
  console (Serverless.getAccessToken
             (Replied {| tr_code := 99991663; tenant_access_token := "";
                         expire := 0; tr_msg := "app secret invalid" |}) 80 boot).2 = [] ∧
  console (Express.getAccessToken
             (Replied {| tr_code := 99991663; tenant_access_token := "";
                         expire := 0; tr_msg := "app secret invalid" |}) 80 boot).2 =
    ["Error getting access token: Failed to get token: app secret invalid"].
Proof.
  destruct (getAccessToken_copies_agree boot
              (Replied {| tr_code := 99991663; tenant_access_token := "";
                          expire := 0; tr_msg := "app secret invalid" |}) 80)
    as (_ & _ & _ & _ & _ & Hconsole).
  apply (Hconsole {| tr_code := 99991663; tenant_access_token := "";
                     expire := 0; tr_msg := "app secret invalid" |});
    [reflexivity | reflexivity | discriminate].
Defined.

(** ** The serverless handler *)

Section HandlerProperties.
Import Handler.




End HandlerProperties.

Section ProxyProperties.

(** Neither server contacts Bitable without a token. When
    [getAccessToken] returned a falsy value, the run ends in the world the
    token step left: the serverless handler answers 500, the Express
    [getRecords] returns the mock data, and no records request is made. *)
Theorem no_records_request_without_token (env : Handler.Env) (up : Upstream) (w : World) :
  (∀ t w1,
     Serverless.getAccessToken (token_reply up) (token_latency up) w = (Normal t, w1) →
     token_truthy t = false →
     Handler.handler env up w = (Normal (Handler.Json500 "Failed to get access token"), w1)) ∧
  (∀ t w1,
     Express.getAccessToken (token_reply up) (token_latency up) w = (Normal t, w1) →
     token_truthy t = false →
     getRecords up w = (Normal (getMockData (clock w1)), w1)).
Proof.
  split; intros t w1 Htok Ht.
  - unfold Handler.handler. cbv [mbind M_bind]. rewrite Htok, Ht. reflexivity.
  - unfold getRecords. cbv [mbind M_bind]. rewrite Htok, Ht. reflexivity.
Qed.

Lemma no_records_request_without_token_witness :
  Handler.handler {| Handler.env_FEISHU_APP_TOKEN := None; Handler.env_FEISHU_TABLE_ID := None |}
    {| token_reply := Rejected "ENOTFOUND"; token_latency := 40;
       records_reply := Replied {| rr_code := 0; rr_items := Some []; rr_msg := "" |};
       records_latency := 10 |} boot
  = (Normal (Handler.Json500 "Failed to get access token"),
     {| accessToken := None; tokenExpireTime := 0; clock := 40;
        requests := [token_url];
        console := ["获取 token 失败: ENOTFOUND"] |}).
Proof.
  apply (proj1 (no_records_request_without_token
           {| Handler.env_FEISHU_APP_TOKEN := None; Handler.env_FEISHU_TABLE_ID := None |}
           {| token_reply := Rejected "ENOTFOUND"; token_latency := 40;
              records_reply := Replied {| rr_code := 0; rr_items := Some []; rr_msg := "" |};
              records_latency := 10 |} boot) None);
    reflexivity.
Defined.

(** With a token and a code-0 reply, the Express [getRecords] hands back
    Bitable's items as they are, an empty list included, after exactly one
    records request; no mock record is mixed in. *)
Theorem getRecords_passes_items_through (up : Upstream) (w w1 : World)
    (t : string) (r : RecordsReply) (items : list Fields) :
  Express.getAccessToken (token_reply up) (token_latency up) w = (Normal (Some t), w1) →
  t ≠ "" →
  records_reply up = Replied r →
  rr_code r = 0 →
  rr_items r = Some items →
  ∃ w', getRecords up w = (Normal items, w') ∧
        requests w' = (requests w1 ++ [records_url])%list ∧
        console w' = console w1 ∧
        api_robots up w =
          (Normal {| res_status := 200; res_body := Robots items |}, w').
Proof.
  intros Htok Hne Hr Hc Hi.
  assert (Hrec : ∃ w', getRecords up w = (Normal items, w') ∧
                       requests w' = (requests w1 ++ [records_url])%list ∧
                       console w' = console w1).
  { unfold getRecords. cbv [mbind M_bind]. rewrite Htok.
    assert (token_truthy (Some t) = true) as ->
      by (simpl; by destruct (String.eqb_spec t "")).
    simpl. cbv [try_catch axios mbind M_bind mret M_ret]. rewrite Hr.
    apply Z.eqb_eq in Hc. rewrite Hc, Hi.
    eexists. split; [reflexivity |]. simpl. done. }
  destruct Hrec as (w' & Hrec & Hreq & Hcon).
  exists w'. split; [exact Hrec |]. split; [exact Hreq |]. split; [exact Hcon |].
  unfold api_robots. cbv [try_catch mbind M_bind mret M_ret].
  rewrite Hrec. reflexivity.
Qed.

Lemma getRecords_passes_items_through_witness :
  ∃ w', getRecords
          {| token_reply := Replied {| tr_code := 0; tenant_access_token := "t-1";
                                       expire := 7200; tr_msg := "ok" |};
             token_latency := 40;
             records_reply := Replied {| rr_code := 0; rr_items := Some []; rr_msg := "" |};
             records_latency := 10 |} boot = (Normal [], w') ∧
        requests w' = [token_url; records_url].
Proof.
  destruct (getRecords_passes_items_through
              {| token_reply := Replied {| tr_code := 0; tenant_access_token := "t-1";
                                           expire := 7200; tr_msg := "ok" |};
                 token_latency := 40;
                 records_reply := Replied {| rr_code := 0; rr_items := Some []; rr_msg := "" |};
                 records_latency := 10 |} boot
              {| accessToken := Some "t-1"; tokenExpireTime := 40 + 7140 * 1000; clock := 40;
                 requests := [token_url]; console := [] |}
              "t-1" {| rr_code := 0; rr_items := Some []; rr_msg := "" |} [])
    as (w' & Hrec & Hreq & _); try reflexivity; [discriminate |].
  exists w'. split; [exact Hrec | exact Hreq].
Defined.

End ProxyProperties.

Section RobotViewProperties.
Import Handler.






Example robots_of_one :
  robots_of [ [("Name", CText "大周"); ("Status", CText "running"); ("任务进度", CNum 0)];
              [("Name", CText "默默")] ]
  = [ {| name := CText "大周"; status := CText "执行中"; currentTask := CText "-";
         progress := CNum 0; cpu := CNum 0; memory := CNum 0; lastSeen := None;
         location := CText "-"; owner := CText "-"; version := CText "-";
         issueStatus := CText "正常"; tasksCompleted := CNum 0; uptime := CText "-" |} ].
Proof. vm_compute. reflexivity. Qed.

End RobotViewProperties.

(** ** The reporter, further *)

Section ReporterFurther.
Import Reporter.

(** [report()] fails in exactly one situation: [openclaw status] printed the
    JSON value null, on which [status.error] throws. Then nothing is
    posted and only the first line is printed. In every other situation,
    a failed health or status collection included, exactly one POST is
    made and the call completes normally. *)
Theorem report_throws_iff_status_null (env : Env) (s : Sample) (d : Delivery) :
  ((∃ e, completion (report env s d) = Throw e) ↔ status_exec s = Printed JNull) ∧
  (status_exec s = Printed JNull →
     posts (report env s d) = [] ∧ lines (report env s d) = [collecting_line s]) ∧
  (status_exec s ≠ Printed JNull →
     completion (report env s d) = Normal tt ∧ length (posts (report env s d)) = 1%nat).
Proof.
  assert (Hnull : status_exec s = Printed JNull →
                  report env s d =
                    {| lines := [collecting_line s]; posts := [];
                       completion := Throw "TypeError: Cannot read properties of null" |}).
  { intros Hs. unfold report, build_payload. rewrite Hs. reflexivity. }
  assert (Hok : status_exec s ≠ Printed JNull →
     completion (report env s d) = Normal tt ∧ length (posts (report env s d)) = 1%nat).
  { intros Hs. destruct (build_payload_total env s Hs) as [payload Hp].
    unfold report. rewrite Hp.
    destruct (postData (ingest_url env) payload d); simpl; done. }
  split; [| split; [| exact Hok]].
  - split.
    + intros [e He].
      destruct (status_exec s) as [[] | m] eqn:E; try reflexivity;
        (destruct Hok as [Hc _]; [discriminate | congruence]).
    + intros Hs. rewrite (Hnull Hs). by eexists.
  - intros Hs. rewrite (Hnull Hs). done.
Qed.

Lemma report_throws_iff_status_null_witness :
  posts (report macbook
           {| now_iso := "2026-02-19T11:12:35.892Z";
              health_exec := Printed (JObj [("ok", JBool true)]);
              status_exec := Printed JNull |} (ResEnd 200 "")) = [] ∧
  length (posts (report macbook status_down ReqTimeout)) = 1%nat.
Proof.
  split.
  - apply (report_throws_iff_status_null macbook
             {| now_iso := "2026-02-19T11:12:35.892Z";
                health_exec := Printed (JObj [("ok", JBool true)]);
                status_exec := Printed JNull |} (ResEnd 200 "")).
    reflexivity.
  - apply (report_throws_iff_status_null macbook status_down ReqTimeout).
    discriminate.
Defined.

(** What the hub receives of the two collections. A failed health
    collection is forwarded as [{ error: message }]; a printed health value
    is forwarded as it is, null included. A printed status is forwarded as
    it is unless it carries a truthy [error] property, in which case null is
    sent although the collection succeeded. *)
Theorem payload_forwards_collections (env : Env) (s : Sample) (payload : JSON) :
  build_payload env s = Normal payload →
  (∀ v, health_exec s = Printed v → field payload "health" = Some v) ∧
  (∀ m, health_exec s = Failed m →
        field payload "health" = Some (JObj [("error", JStr m)])) ∧
  (∀ v, status_exec s = Printed v → truthy_opt (field v "error") = false →
        field payload "status" = Some v) ∧
  (∀ v, status_exec s = Printed v → truthy_opt (field v "error") = true →
        field payload "status" = Some JNull).
Proof.
  unfold build_payload. intros Hp.
  destruct (payload_status (getOpenClawStatus (status_exec s))) as [st | e] eqn:Hst;
    [| discriminate].
  injection Hp as <-. simpl.
  split; [intros v ->; reflexivity |].
  split; [intros m ->; reflexivity |].
  split; intros v Hv He; rewrite Hv in Hst; simpl in Hst;
    unfold payload_status in Hst;
    destruct v; simpl in *; try discriminate;
    try (rewrite He in Hst); by injection Hst as <-.
Qed.

Lemma payload_forwards_collections_witness :
  field (JObj [("robot_id", JStr "guyuanyuan-macbook-air");
               ("hostname", JStr "guyuanyuandeMacBook-Air.local");
               ("platform", JStr "darwin");
               ("report_at", JStr "2026-02-19T11:12:35.892Z");
               ("health", JObj [("error", JStr "spawnSync /bin/sh ETIMEDOUT")]);
               ("status", JNull);
               ("metrics", JObj [("uptime", JNum 3600);
                                 ("loadavg", JArr [JNum 2; JNum 1; JNum 1]);
                                 ("totalmem", JNum 17179869184);
                                 ("freemem", JNum 8589934592)])]) "status"
  = Some JNull.
Proof.
  destruct (payload_forwards_collections macbook
              {| now_iso := "2026-02-19T11:12:35.892Z";
                 health_exec := Failed "spawnSync /bin/sh ETIMEDOUT";
                 status_exec := Printed (JObj [("model", JStr "MiniMax-M2.5");
                                               ("error", JStr "gateway unreachable")]) |}
              _ eq_refl) as (_ & _ & _ & Hdrop).
  apply (Hdrop (JObj [("model", JStr "MiniMax-M2.5");
                      ("error", JStr "gateway unreachable")])); reflexivity.
Defined.

End ReporterFurther.

(** ** The table-creation script *)

Section SetupProperties.
Import Setup.

(** [createTable] never throws: it sends one request, prints one line, and
    returns the data or null. *)
Lemma createTable_returns (env : Env) (net : Net) (token : string) (table : Table)
    (t : Trace) :
  ∃ v t', createTable env net token table t = (Returned v, t') ∧
          sent t' = (sent t ++ [PostTable (tables_url env) ("Bearer " +:+ token) table])%list ∧
          length (printed t') = Datatypes.S (length (printed t)) ∧
          (v ≠ None ↔ ∃ r, table_endpoint net (table_name table) = Replied r ∧ tb_code r = 0).
Proof.
  unfold createTable.
  cbv [try_catch mbind S_bind post print mret S_ret].
  destruct (table_endpoint net (table_name table)) as [r | e]; simpl.
  - destruct (tb_code r =? 0)%Z eqn:Hc; simpl; eexists _, _;
      (split; [reflexivity |]); simpl;
      (split; [reflexivity |]); (split; [rewrite length_app; simpl; lia |]).
    + apply Z.eqb_eq in Hc. split; [intros _; by exists r | discriminate].
    + apply Z.eqb_neq in Hc. split; [done |].
      intros (r' & [= <-] & Hc'). contradiction.
  - eexists _, _. split; [reflexivity |]. simpl.
    split; [reflexivity |]. split; [rewrite length_app; simpl; lia |].
    split; [done |]. intros (r' & Hr & _). discriminate Hr.
Qed.

(** Without credentials nothing is sent. When FEISHU_APP_ID or
    FEISHU_APP_SECRET is unset or empty, [main] prints the usage lines and
    the process exits with code 1 before any request; the final [catch]
    does not intercept the exit. *)
Theorem main_without_credentials_exits (env : Env) (net : Net) (t : Trace) :
  set (APP_ID env) = false ∨ set (APP_SECRET env) = false →
  ∃ t', main env net t = (Exited 1, t') ∧
        script env net t = (Exited 1, t') ∧
        sent t' = sent t ∧
        length (printed t') = (length (printed t) + 5)%nat.
Proof.
  intros Hmissing.
  assert (Hcond : negb (set (APP_ID env)) || negb (set (APP_SECRET env)) = true).
  { destruct Hmissing as [-> | ->]; [reflexivity | apply orb_true_r]. }
  unfold script, main.
  cbv [Setup.try_catch mbind S_bind print exit mret S_ret]. rewrite Hcond. simpl.
  eexists. split; [reflexivity |]. split; [reflexivity |]. simpl.
  split; [reflexivity |].
  rewrite !length_app. simpl. lia.
Qed.

Lemma main_without_credentials_exits_witness :
  ∃ t', main {| APP_ID := Some "cli_a7bbc7195fbd500d"; APP_SECRET := Some "";
                BITABLE_APP_TOKEN := None |}
             {| token_endpoint := Rejected "unused";
                table_endpoint := λ _, Rejected "unused" |} start = (Exited 1, t') ∧
        sent t' = [].
Proof.
  destruct (main_without_credentials_exits
              {| APP_ID := Some "cli_a7bbc7195fbd500d"; APP_SECRET := Some "";
                 BITABLE_APP_TOKEN := None |}
              {| token_endpoint := Rejected "unused";
                 table_endpoint := λ _, Rejected "unused" |} start)
    as (t' & Hmain & _ & Hsent & _); [right; reflexivity |].
  exists t'. split; [exact Hmain | exact Hsent].
Defined.

(** No token, no tables. With credentials set, when the token request is
    rejected or answered with a non-zero code, [main] throws after that
    single request: no table request is sent, and the final [catch] prints
    the error and lets the script end normally. *)
Theorem main_without_token_creates_nothing (env : Env) (net : Net) (t : Trace) :
  set (APP_ID env) = true → set (APP_SECRET env) = true →
  (∀ r, token_endpoint net = Replied r → tr_code r ≠ 0) →
  ∃ message t',
    main env net t = (Raised message, t') ∧
    sent t' = (sent t ++ [PostToken (APP_ID env) (APP_SECRET env)])%list ∧
    script env net t =
      (Returned tt, {| sent := sent t'; printed := (printed t' ++ [Err message])%list |}).
Proof.
  intros Hid Hsecret Hfail.
  unfold script, main, getAccessToken.
  cbv [Setup.try_catch mbind S_bind print exit mret S_ret post raise].
  rewrite Hid, Hsecret. simpl.
  destruct (token_endpoint net) as [r | e]; simpl.
  - specialize (Hfail r eq_refl). apply Z.eqb_neq in Hfail. rewrite Hfail.
    eexists _, _. split; [reflexivity |]. split; reflexivity.
  - eexists _, _. split; [reflexivity |]. split; reflexivity.
Qed.

Lemma main_without_token_creates_nothing_witness :
  ∃ message t',
    main {| APP_ID := Some "cli_x"; APP_SECRET := Some "secret"; BITABLE_APP_TOKEN := Some "bas" |}
         {| token_endpoint := Rejected "ETIMEDOUT";
            table_endpoint := λ _, Rejected "unused" |} start = (Raised message, t') ∧
    sent t' = [PostToken (Some "cli_x") (Some "secret")].
Proof.
  destruct (main_without_token_creates_nothing
              {| APP_ID := Some "cli_x"; APP_SECRET := Some "secret";
                 BITABLE_APP_TOKEN := Some "bas" |}
              {| token_endpoint := Rejected "ETIMEDOUT";
                 table_endpoint := λ _, Rejected "unused" |} start)
    as (message & t' & Hmain & Hsent & _);
    [reflexivity | reflexivity | intros r Hr; discriminate Hr |].
  exists message, t'. split; [exact Hmain | exact Hsent].
Defined.

(** With a token, all four tables are attempted. After a code-0 token
    reply, [main] sends the token request and then one creation request
    for Robots, Jobs, DailySummary and Alerts, in that order, each to the
    tables URL of the configured app with the token as bearer; a table
    that fails does not stop the ones after it, and [main] returns. The
    app token is not checked: when FEISHU_BITABLE_APP_TOKEN is unset the
    URL names the app "undefined". *)
Theorem main_attempts_all_tables (env : Env) (net : Net) (t : Trace) (r : TokenReply) :
  set (APP_ID env) = true → set (APP_SECRET env) = true →
  token_endpoint net = Replied r → tr_code r = 0 →
  ∃ t',
    main env net t = (Returned tt, t') ∧
    sent t' =
      (sent t ++
       [ PostToken (APP_ID env) (APP_SECRET env);
         PostTable (tables_url env) ("Bearer " +:+ tenant_access_token r) ROBOTS_TABLE;
         PostTable (tables_url env) ("Bearer " +:+ tenant_access_token r) JOBS_TABLE;
         PostTable (tables_url env) ("Bearer " +:+ tenant_access_token r) DAILY_SUMMARY_TABLE;
         PostTable (tables_url env) ("Bearer " +:+ tenant_access_token r) ALERTS_TABLE ])%list ∧
    (BITABLE_APP_TOKEN env = None →
       tables_url env = "https://open.feishu.cn/open-apis/bitable/v1/apps/undefined/tables").
Proof.
  intros Hid Hsecret Hr Hc.
  unfold main, getAccessToken.
  cbv [mbind S_bind print exit mret S_ret post raise].
  rewrite Hid, Hsecret, Hr. simpl. apply Z.eqb_eq in Hc. rewrite Hc.
  set (token := tenant_access_token r).
  match goal with |- context [createTable env net token ROBOTS_TABLE ?t0] =>
    destruct (createTable_returns env net token ROBOTS_TABLE t0) as (v1 & t1 & -> & H1 & _) end.
  destruct (createTable_returns env net token JOBS_TABLE t1) as (v2 & t2 & -> & H2 & _).
  destruct (createTable_returns env net token DAILY_SUMMARY_TABLE t2) as (v3 & t3 & -> & H3 & _).
  destruct (createTable_returns env net token ALERTS_TABLE t3) as (v4 & t4 & -> & H4 & _).
  eexists. split; [reflexivity |]. simpl. split.
  - rewrite H4, H3, H2, H1. simpl. rewrite <- !app_assoc. reflexivity.
  - intros Hnone. unfold tables_url. rewrite Hnone. reflexivity.
Qed.

Lemma main_attempts_all_tables_witness :
  ∃ t',
    main {| APP_ID := Some "cli_x"; APP_SECRET := Some "secret"; BITABLE_APP_TOKEN := None |}
         {| token_endpoint := Replied {| tr_code := 0; tenant_access_token := "t-1";
                                         expire := 7200; tr_msg := "ok" |};
            table_endpoint := λ _, Rejected "Request failed with status code 404" |}
         start = (Returned tt, t') ∧
    sent t' =
      [ PostToken (Some "cli_x") (Some "secret");
        PostTable "https://open.feishu.cn/open-apis/bitable/v1/apps/undefined/tables"
                  "Bearer t-1" ROBOTS_TABLE;
        PostTable "https://open.feishu.cn/open-apis/bitable/v1/apps/undefined/tables"
                  "Bearer t-1" JOBS_TABLE;
        PostTable "https://open.feishu.cn/open-apis/bitable/v1/apps/undefined/tables"
                  "Bearer t-1" DAILY_SUMMARY_TABLE;
        PostTable "https://open.feishu.cn/open-apis/bitable/v1/apps/undefined/tables"
                  "Bearer t-1" ALERTS_TABLE ].
Proof.
  destruct (main_attempts_all_tables
              {| APP_ID := Some "cli_x"; APP_SECRET := Some "secret";
                 BITABLE_APP_TOKEN := None |}
              {| token_endpoint := Replied {| tr_code := 0; tenant_access_token := "t-1";
                                              expire := 7200; tr_msg := "ok" |};
                 table_endpoint := λ _, Rejected "Request failed with status code 404" |}
              start
              {| tr_code := 0; tenant_access_token := "t-1"; expire := 7200; tr_msg := "ok" |})
    as (t' & Hmain & Hsent & _); try reflexivity.
  exists t'. split; [exact Hmain | exact Hsent].
Defined.

End SetupProperties.

(** ** The overview page *)

Section OverviewProperties.
Import OverviewPage.

Lemma kpi_of_null (k : string) : kpi JNull k = JStr "-".
Proof. reflexivity. Qed.

(** The page survives endpoints that are down. When none of the three
    responses is ok, no body is read and the page renders: every KPI shows
    "-", there is no robot card, and the anomaly queue shows its empty
    line. *)
Theorem Page_with_all_endpoints_down (o r a : Fetched) :
  ok o = false → ok r = false → ok a = false →
  Page o r a =
    Normal {| online_count := JStr "-"; total_count := JStr "-";
              error_count := JStr "-"; today_work_units_total := JStr "-";
              avg_utilization_today := JStr "-"; stuck_jobs_count := JStr "-";
              robots := []; no_anomalies := true; anomalies := [] |}.
Proof.
  intros Ho Hr Ha. unfold Page, getOverview, getRobots, getAnomalies.
  rewrite Ho, Hr, Ha. reflexivity.
Qed.

Lemma Page_with_all_endpoints_down_witness :
  Page {| ok := false; json := Throw "Unexpected token < in JSON" |}
       {| ok := false; json := Throw "Unexpected token < in JSON" |}
       {| ok := false; json := Normal (JObj [("detail", JStr "Not Found")]) |}
  = Normal {| online_count := JStr "-"; total_count := JStr "-";
              error_count := JStr "-"; today_work_units_total := JStr "-";
              avg_utilization_today := JStr "-"; stuck_jobs_count := JStr "-";
              robots := []; no_anomalies := true; anomalies := [] |}.
Proof. apply Page_with_all_endpoints_down; reflexivity. Defined.

(** A KPI shows "-" only for a missing value, not for a falsy one: the
    placeholder appears exactly when the overview is null or the field is
    absent or null (or is itself the string "-"); a count of 0 is shown as
    0. *)
Theorem kpi_placeholder_iff (overview : JSON) (k : string) :
  (kpi overview k = JStr "-" ↔
     overview = JNull ∨ field overview k = None ∨ field overview k = Some JNull
     ∨ field overview k = Some (JStr "-")) ∧
  (∀ v, overview ≠ JNull → field overview k = Some v → v ≠ JNull → kpi overview k = v).
Proof.
  unfold kpi, opt_chain, nullish_or. split.
  - destruct overview; simpl; try destruct (assoc k fields) as [[] |];
      (split;
       [ intros H;
         first [ by left | by (right; left) | by (right; right; left)
               | right; right; right; congruence | congruence ]
       | intros [H | [H | [H | H]]]; congruence ]).
  - intros v Hnn Hf Hv. destruct overview; try contradiction; rewrite Hf;
      destruct v; try contradiction; reflexivity.
Qed.

Lemma kpi_placeholder_iff_witness :
  kpi (JObj [("online_count", JNum 0); ("total_count", JNum 3)]) "online_count" = JNum 0.
Proof.
  apply (proj2 (kpi_placeholder_iff
                  (JObj [("online_count", JNum 0); ("total_count", JNum 3)])
                  "online_count") (JNum 0)); [discriminate | reflexivity | discriminate].
Defined.

(** On a robot card the two kinds of placeholder differ: the health score
    uses [??], so every value but null is displayed as it is, a score of 0
    included; the hostname uses [||], so a falsy hostname (missing, null,
    empty) is displayed as "-" and a truthy one as it is. The badge reads
    OK exactly when [r.ok] is truthy, and ERROR otherwise. *)
Theorem card_placeholders (r : JSON) (c : Card) :
  card r = Normal c →
  (∀ v, field r "health_score" = Some v → v ≠ JNull → health_score c = v) ∧
  (truthy_opt (field r "hostname") = false → hostname c = JStr "-") ∧
  (truthy_opt (field r "hostname") = true → Some (hostname c) = field r "hostname") ∧
  (badge c = "OK" ↔ truthy_opt (field r "ok") = true) ∧
  (badge c = "OK" ∨ badge c = "ERROR").
Proof.
  intros Hc.
  assert (Hcard : c =
    {| title := field r "robot_id";
       badge := if truthy_opt (field r "ok") then "OK" else "ERROR";
       health_score := nullish_or (field r "health_score") (JStr "-");
       hostname := or_else (field r "hostname") (JStr "-");
       platform := or_else (field r "platform") (JStr "-");
       version := or_else (field r "version") (JStr "-");
       last_seen_at := or_else (field r "last_seen_at") (JStr "-");
       href_id := field r "robot_id" |}).
  { destruct r; simpl in Hc; try discriminate; by injection Hc as <-. }
  subst c. simpl.
  split; [intros v -> Hv; by destruct v |].
  split; [apply or_else_missing |].
  split.
  { unfold or_else. destruct (field r "hostname") as [j |]; simpl; [| discriminate].
    intros ->. reflexivity. }
  destruct (truthy_opt (field r "ok")).
  - split; [split; reflexivity | by left].
  - split; [split; discriminate | by right].
Qed.

Lemma card_placeholders_witness :
  health_score
    {| title := Some (JStr "r1"); badge := "ERROR"; health_score := JNum 0;
       hostname := JStr "-"; platform := JStr "-"; version := JStr "-";
       last_seen_at := JStr "-"; href_id := Some (JStr "r1") |} = JNum 0.
Proof.
  apply (card_placeholders
           (JObj [("robot_id", JStr "r1"); ("health_score", JNum 0); ("hostname", JStr "")]));
    [reflexivity | reflexivity | discriminate].
Defined.

End OverviewProperties.

(** ** The daily report page *)

Section DailyReportProperties.
Import DailyReportPage.

Lemma string_length_app (a b : string) :
  String.length (a ++ b) = (String.length a + String.length b)%nat.
Proof. induction a as [| c a IH]; simpl; [reflexivity | by rewrite IH]. Qed.

Lemma top_error_long (e : JSON) (s : string) :
  top_error e = Normal s → (2 ≤ String.length s)%nat.
Proof.
  unfold top_error. intros H.
  assert (Hs : s = interpolate (field e "code") ++ "(" ++ interpolate (field e "count") ++ ")")
    by (destruct e; simpl in H; try discriminate; by injection H as <-).
  subst s. rewrite !string_length_app. simpl. lia.
Qed.

Lemma top_error_strings_long (l : list JSON) (ss : list string) :
  top_error_strings l = Normal ss →
  length ss = length l ∧ Forall (λ s, (2 ≤ String.length s)%nat) ss.
Proof.
  revert ss. induction l as [| e l IH]; intros ss; simpl.
  - intros [= <-]. split; [reflexivity | constructor].
  - destruct (top_error e) as [s |] eqn:He; [| discriminate].
    destruct (top_error_strings l) as [ss' |]; [| discriminate].
    intros [= <-]. destruct (IH ss' eq_refl) as [Hlen Hall].
    split; [simpl; by rewrite Hlen |].
    constructor; [by eapply top_error_long | exact Hall].
Qed.

Lemma join_long (sep : string) (ss : list string) :
  ss ≠ [] → Forall (λ s, (2 ≤ String.length s)%nat) ss →
  (2 ≤ String.length (join sep ss))%nat.
Proof.
  destruct ss as [| s ss]; [done |]. intros _ Hall.
  apply Forall_cons in Hall as [Hs _].
  destruct ss as [| s' ss]; simpl; [exact Hs |].
  rewrite string_length_app. lia.
Qed.

(** The "Top errors" line of a report card. It reads "-" exactly when the
    report has no top errors: [top_errors] missing, falsy, or an empty
    array. For a non-empty array of non-null entries it is the entries
    printed as code(count) and joined by ", ", never the placeholder. *)
Theorem top_errors_cell_placeholder (v : option JSON) :
  (truthy_opt v = false → top_errors_cell v = Normal "-") ∧
  (∀ l s, v = Some (JArr l) → top_errors_cell v = Normal s →
     (s = "-" ↔ l = []) ∧
     (l ≠ [] → ∃ ss, top_error_strings l = Normal ss ∧ length ss = length l ∧
                     s = join ", " ss)).
Proof.
  split.
  - intros Hf. unfold top_errors_cell. by rewrite (or_else_missing v _ Hf).
  - intros l s -> Hs. unfold top_errors_cell in Hs. simpl in Hs.
    destruct (top_error_strings l) as [ss |] eqn:Hss; [| discriminate].
    destruct (top_error_strings_long l ss Hss) as [Hlen Hall].
    injection Hs as <-.
    destruct l as [| e l].
    + simpl in Hss. injection Hss as <-. simpl. split; [done |]. done.
    + assert (Hne : ss ≠ []) by (destruct ss; [discriminate Hlen | discriminate]).
      pose proof (join_long ", " ss Hne Hall) as Hlong.
      destruct (String.eqb_spec (join ", " ss) "") as [E | _].
      { rewrite E in Hlong. simpl in Hlong. lia. }
      split.
      * split; [| discriminate]. intros E. rewrite E in Hlong. simpl in Hlong. lia.
      * intros _. by exists ss.
Qed.

Lemma top_errors_cell_placeholder_witness :
  top_errors_cell (Some JNull) = Normal "-" ∧
  ("GRIPPER_TIMEOUT(2), E42(1)" = "-" ↔
   [JObj [("code", JStr "GRIPPER_TIMEOUT"); ("count", JNum 2)];
    JObj [("code", JStr "E42"); ("count", JNum 1)]] = []).
Proof.
  split.
  - apply (proj1 (top_errors_cell_placeholder (Some JNull))). reflexivity.
  - destruct (proj2 (top_errors_cell_placeholder
             (Some (JArr [JObj [("code", JStr "GRIPPER_TIMEOUT"); ("count", JNum 2)];
                          JObj [("code", JStr "E42"); ("count", JNum 1)]])))
             [JObj [("code", JStr "GRIPPER_TIMEOUT"); ("count", JNum 2)];
              JObj [("code", JStr "E42"); ("count", JNum 1)]]
             "GRIPPER_TIMEOUT(2), E42(1)" eq_refl) as [H _];
      [vm_compute; reflexivity | exact H].
Defined.

Lemma cards_of_length (l : list JSON) (cs : list Card) :
  cards_of l = Normal cs → length cs = length l.
Proof.
  revert cs. induction l as [| r l IH]; intros cs; simpl.
  - by intros [= <-].
  - destruct (card r); [| discriminate].
    destruct (cards_of l) as [cs' |]; [| discriminate].
    intros [= <-]. simpl. by rewrite (IH cs' eq_refl).
Qed.

(** The empty state of the daily report. The page never throws on missing
    data: when the response is not ok, or the body is null, or it has no
    (or a falsy) [reports] field, it renders no card and the line
    暂无日报数据. Whenever the page renders, that line is shown exactly
    when there is no card. *)
Theorem DailyReport_empty_state (res : Fetched) :
  (ok res = false → DailyReport res = Normal {| cards := []; no_data := true |}) ∧
  (∀ data, ok res = true → json res = Normal data →
           truthy_opt (opt_chain data "reports") = false →
           DailyReport res = Normal {| cards := []; no_data := true |}) ∧
  (∀ view, DailyReport res = Normal view → (no_data view = true ↔ cards view = [])).
Proof.
  assert (Hrender : ∀ data view, render data = Normal view →
                                 (no_data view = true ↔ cards view = [])).
  { intros data view. unfold render.
    destruct (or_else (opt_chain data "reports") (JArr [])); try discriminate.
    destruct (cards_of items) as [cs |] eqn:Hcs; [| discriminate].
    intros [= <-]. simpl. pose proof (cards_of_length items cs Hcs) as Hlen.
    destruct items, cs; simpl in *; try discriminate; done. }
  unfold DailyReport, getReport. split; [| split].
  - intros ->. reflexivity.
  - intros data -> -> Hf. simpl. unfold render.
    by rewrite (or_else_missing _ _ Hf).
  - intros view. destruct (ok res); simpl.
    + destruct (json res) as [data |]; [apply Hrender | discriminate].
    + apply Hrender.
Qed.

Lemma DailyReport_empty_state_witness :
  DailyReport {| ok := true; json := Normal (JObj [("reports", JNull)]) |}
  = Normal {| cards := []; no_data := true |}.
Proof.
  destruct (DailyReport_empty_state
              {| ok := true; json := Normal (JObj [("reports", JNull)]) |})
    as (_ & Hmissing & _).
  apply (Hmissing (JObj [("reports", JNull)])); reflexivity.
Defined.

End DailyReportProperties.

(** ** The workboard page, counted *)

Section WorkboardCount.
Import WorkboardPage.






End WorkboardCount.

(** ** The robot detail page, error paths *)

Section RobotDetailErrors.
Import RobotDetailPage.





End RobotDetailErrors.

(** ** The token cache under the Express proxy *)

(** With a cached, unexpired token [getRecords] does not contact the token
    endpoint at all: it makes exactly one request, the Bitable records
    request, whatever the token endpoint would have answered. *)
Theorem getRecords_reuses_token (up : Upstream) (w : World) (t : string) :
  cached_and_fresh w t →
  requests (getRecords up w).2 = (requests w ++ [records_url])%list ∧
  accessToken (getRecords up w).2 = accessToken w ∧
  tokenExpireTime (getRecords up w).2 = tokenExpireTime w.
Proof.
  intros Hfresh.
  assert (Hv : cache_valid w = true) by (apply cache_valid_true; by exists t).
  destruct (express_cached_credential w (token_reply up) (token_latency up)) as (Hhit & _ & _).
  unfold getRecords. cbv [mbind M_bind]. rewrite (Hhit Hv).
  destruct Hfresh as (Htok & Hne & _). rewrite Htok.
  assert (token_truthy (Some t) = true) as ->
    by (simpl; by destruct (String.eqb_spec t "")).
  simpl. cbv [try_catch axios mbind M_bind console_error mock read mret M_ret throw].
  destruct (records_reply up) as [r | e]; simpl; [| done].
  destruct (rr_code r =? 0)%Z; simpl; [| done].
  destruct (rr_items r); done.
Qed.

Lemma getRecords_reuses_token_witness :
  requests
    (getRecords {| token_reply := Rejected "token endpoint down"; token_latency := 0;
                   records_reply := Replied {| rr_code := 0; rr_items := Some [];
                                               rr_msg := "" |};
                   records_latency := 30 |}
                {| accessToken := Some "t-abc"; tokenExpireTime := 5000; clock := 1000;
                   requests := []; console := [] |}).2
  = [records_url].
Proof.
  apply (getRecords_reuses_token
           {| token_reply := Rejected "token endpoint down"; token_latency := 0;
              records_reply := Replied {| rr_code := 0; rr_items := Some []; rr_msg := "" |};
              records_latency := 30 |}
           {| accessToken := Some "t-abc"; tokenExpireTime := 5000; clock := 1000;
              requests := []; console := [] |} "t-abc").
  split; [reflexivity | split; [discriminate | reflexivity]].
Defined.

(** ** createTable *)

